(** * The query pipeline of [server/server.js]

    A shallow embedding of the two Express handlers of the server
    ([GET /api/health] and [POST /api/search]) and of [buildFilter]:

    - JavaScript values as an inductive type, numbers as IEEE 754 binary64
      values ([spec_float] at precision 53);
    - the coercions the code relies on ([Number(x)], [String(x)], truthiness,
      [typeof]) as executable functions following ECMA-262;
    - the asynchronous handlers as resumption trees: every [await] on a
      collaborator is a node whose continuation receives what the collaborator
      returned or threw. *)

From Stdlib Require Import ZArith List Bool Ascii String.
From Stdlib Require Import Floats.SpecFloat DecimalString.
From Stdlib Require Import Lia.
Import ListNotations.

Local Open Scope string_scope.
Local Open Scope Z_scope.

(** ** Numbers *)

Module Num.

(** A JavaScript Number: a binary64 value in canonical form
    ([valid_binary prec emax]), with a single NaN. *)
Definition number := spec_float.

Definition prec : Z := 53.
Definition emax : Z := 1024.

Definition NaN : number := S754_nan.
Definition pos_zero : number := S754_zero false.
Definition neg_zero : number := S754_zero true.
Definition infinity (neg : bool) : number := S754_infinity neg.

(** [Number.isNaN] on a Number. *)
Definition isNaN (x : number) : bool :=
  match x with S754_nan => true | _ => false end.

Definition is_zero (x : number) : bool :=
  match x with S754_zero _ => true | _ => false end.

(** The Number nearest to an integer (ties to even). *)
Definition of_Z (z : Z) : number := binary_normalize prec emax z 0 false.

Definition of_nat (n : nat) : number := of_Z (Z.of_nat n).

(** The Number nearest to [(-1)^neg * m * 10^e], for [m >= 0]. *)
Definition of_decimal (neg : bool) (m e : Z) : number :=
  match m with
  | Zpos _ =>
      if 0 <=? e then
        match m * 10 ^ e with
        | Zpos p => binary_round prec emax neg p 0
        | _ => S754_zero neg
        end
      else
        let '(q, eq, loc) := SFdiv_core_binary prec emax m 0 (10 ^ (- e)) 0 in
        binary_round_aux prec emax neg q eq loc
  | _ => S754_zero neg
  end.

(** A finite non-zero Number as an exact fraction [p / q]. *)
Definition to_fraction (m : positive) (e : Z) : Z * Z :=
  if 0 <=? e then (Zpos m * 2 ^ e, 1) else (Zpos m, 2 ^ (- e)).

Definition same (x y : number) : bool :=
  match x, y with
  | S754_nan, S754_nan => true
  | S754_zero a, S754_zero b => Bool.eqb a b
  | S754_infinity a, S754_infinity b => Bool.eqb a b
  | S754_finite a m e, S754_finite b n f =>
      Bool.eqb a b && Pos.eqb m n && Z.eqb e f
  | _, _ => false
  end.

End Num.

(** ** Strings

    A JavaScript string is modelled as a [string]: one character per code
    unit, for code units below 256. *)

Module Str.

Definition code (c : ascii) : Z := Z.of_N (N_of_ascii c).

(** [StrWhiteSpaceChar]: TAB, LF, VT, FF, CR, SP and NBSP are the ones
    below 256. *)
Definition is_white_space (c : ascii) : bool :=
  let n := code c in
  (n =? 9) || (n =? 10) || (n =? 11) || (n =? 12) || (n =? 13)
  || (n =? 32) || (n =? 160).

Fixpoint drop_white_space (l : list ascii) : list ascii :=
  match l with
  | c :: r => if is_white_space c then drop_white_space r else l
  | [] => []
  end.

Definition trim (s : string) : string :=
  string_of_list_ascii
    (rev (drop_white_space (rev (drop_white_space (list_ascii_of_string s))))).

Definition is_empty (s : string) : bool :=
  match s with EmptyString => true | _ => false end.

Definition of_Z (z : Z) : string := NilZero.string_of_uint (N.to_uint (Z.to_N z)).

Fixpoint zeros (n : nat) : string :=
  match n with O => "" | S m => String "0"%char (zeros m) end.

Definition len (s : string) : Z := Z.of_nat (String.length s).

End Str.

(** ** [StringToNumber] (ECMA-262, 7.1.4.1.1) *)

Module StringToNumber.

Import Num Str.

(** The value of a digit in the given radix. *)
Definition digit_of (radix : Z) (c : ascii) : option Z :=
  let n := code c in
  let d :=
    if (48 <=? n) && (n <=? 57) then n - 48
    else if (97 <=? n) && (n <=? 102) then n - 87
    else if (65 <=? n) && (n <=? 70) then n - 55
    else radix in
  if d <? radix then Some d else None.

(** Reads the longest run of digits: the accumulated value, the number of
    digits read, and what follows. *)
Fixpoint digits (radix : Z) (s : string) (acc n : Z) : Z * Z * string :=
  match s with
  | String c r =>
      match digit_of radix c with
      | Some d => digits radix r (acc * radix + d) (n + 1)
      | None => (acc, n, s)
      end
  | EmptyString => (acc, n, s)
  end.

Definition sign (s : string) : bool * string :=
  match s with
  | String "+"%char r => (false, r)
  | String "-"%char r => (true, r)
  | _ => (false, s)
  end.

(** An optional [ExponentPart] up to the end of the string. *)
Definition exponent (s : string) : option Z :=
  match s with
  | EmptyString => Some 0
  | String c r =>
      if (code c =? 101) || (code c =? 69) then
        let '(neg, r') := sign r in
        let '(v, n, rest) := digits 10 r' 0 0 in
        if (0 <? n) && is_empty rest then Some (if neg then - v else v)
        else None
      else None
  end.

Definition StrUnsignedDecimalLiteral (neg : bool) (s : string) : number :=
  if String.eqb s "Infinity" then infinity neg
  else
    let '(i, ni, r1) := digits 10 s 0 0 in
    let '(m, nf, r2) :=
      match r1 with
      | String "."%char r => digits 10 r i 0
      | _ => (i, 0, r1)
      end in
    if 0 <? ni + nf then
      match exponent r2 with
      | Some e => of_decimal neg m (e - nf)
      | None => NaN
      end
    else NaN.

Definition radix_of (c : ascii) : option Z :=
  let n := code c in
  if (n =? 120) || (n =? 88) then Some 16
  else if (n =? 111) || (n =? 79) then Some 8
  else if (n =? 98) || (n =? 66) then Some 2
  else None.

Definition NonDecimalIntegerLiteral (s : string) : option number :=
  match s with
  | String "0"%char (String c r) =>
      match radix_of c with
      | Some radix =>
          let '(v, n, rest) := digits radix r 0 0 in
          Some (if (0 <? n) && is_empty rest then Num.of_Z v else NaN)
      | None => None
      end
  | _ => None
  end.

Definition parse (s : string) : number :=
  let t := trim s in
  if is_empty t then pos_zero
  else
    match NonDecimalIntegerLiteral t with
    | Some x => x
    | None => let '(neg, r) := sign t in StrUnsignedDecimalLiteral neg r
    end.

End StringToNumber.

(** ** [Number::toString] in radix 10 (ECMA-262, 6.1.6.1.20) *)

Module NumberToString.

Import Num Str.

(** [floor (p / q / 10^sc)] for a positive fraction [p / q]. *)
Definition scaled_floor (p q sc : Z) : Z :=
  if 0 <=? sc then p / (q * 10 ^ sc) else (p * 10 ^ (- sc)) / q.

(** [|s * 10^sc - p / q|] as a fraction. *)
Definition distance (p q s sc : Z) : Z * Z :=
  if 0 <=? sc then (Z.abs (s * 10 ^ sc * q - p), q)
  else (Z.abs (s * q - p * 10 ^ (- sc)), q * 10 ^ (- sc)).

Definition closer (d1 d2 : Z * Z) : comparison :=
  (fst d1 * snd d2 ?= fst d2 * snd d1).

(** The smallest [j >= 1] with [10^(-j) <= p / q], for [p / q < 1]. *)
Fixpoint leading_zeros (fuel : nat) (p q j : Z) : Z :=
  match fuel with
  | O => j
  | S f => if q <=? p * 10 ^ j then j else leading_zeros f p q (j + 1)
  end.

(** The [n] with [10^(n-1) <= p / q < 10^n]. *)
Definition magnitude (p q : Z) : Z :=
  if q <=? p then len (Str.of_Z (p / q)) else 1 - leading_zeros 400 p q 1.

(** The [k]-digit integers [s] such that [s * 10^(n-k)] is read back as [x]. *)
Definition candidates (x : number) (p q k n : Z) : list (Z * Z) :=
  let s0 := scaled_floor p q (n - k) in
  map (fun s => (n, s))
    (filter (fun s => (10 ^ (k - 1) <=? s) && (s <? 10 ^ k)
                      && Num.same (of_decimal false s (n - k)) x)
            [s0; s0 + 1]).

(** Among the candidates, the one closest to [p / q]; of two equally close,
    the even one. *)
Fixpoint closest (p q k : Z) (cs : list (Z * Z)) : option (Z * Z) :=
  match cs with
  | [] => None
  | (n, s) :: r =>
      match closest p q k r with
      | None => Some (n, s)
      | Some (n', s') =>
          match closer (distance p q s (n - k)) (distance p q s' (n' - k)) with
          | Lt => Some (n, s)
          | Gt => Some (n', s')
          | Eq => if Z.even s then Some (n, s) else Some (n', s')
          end
      end
  end.

(** Step 5: the least [k], with [n] and [s], for [x = p / q > 0]. *)
Fixpoint shortest (fuel : nat) (x : number) (p q n0 k : Z) : Z * Z * Z :=
  match fuel with
  | O => (n0, k, scaled_floor p q (n0 - k))
  | S f =>
      match closest p q k (candidates x p q k n0 ++ candidates x p q k (n0 + 1)) with
      | Some (n, s) => (n, k, s)
      | None => shortest f x p q n0 (k + 1)
      end
  end.

(** Steps 6 to 12: the digits of [s] laid out for the exponent [n]. *)
Definition layout (n k : Z) (ds : string) : string :=
  if (k <=? n) && (n <=? 21) then ds ++ zeros (Z.to_nat (n - k))
  else if (0 <? n) && (n <=? 21) then
    substring 0 (Z.to_nat n) ds ++ "." ++ substring (Z.to_nat n) (Z.to_nat (k - n)) ds
  else if (-6 <? n) && (n <=? 0) then "0." ++ zeros (Z.to_nat (- n)) ++ ds
  else
    let e := n - 1 in
    let tail := "e" ++ (if e <? 0 then "-" else "+") ++ Str.of_Z (Z.abs e) in
    if k =? 1 then ds ++ tail
    else substring 0 1 ds ++ "." ++ substring 1 (Z.to_nat (k - 1)) ds ++ tail.

Definition positive_finite (m : positive) (e : Z) : string :=
  let '(p, q) := to_fraction m e in
  let '(n, k, s) := shortest 17 (S754_finite false m e) p q (magnitude p q) 1 in
  layout n k (Str.of_Z s).

Definition toString (x : number) : string :=
  match x with
  | S754_nan => "NaN"
  | S754_zero _ => "0"
  | S754_infinity neg => if neg then "-Infinity" else "Infinity"
  | S754_finite neg m e =>
      (if neg then "-" else "") ++ positive_finite m e
  end.

End NumberToString.

(** ** Values *)

(** The values the handlers see: what [JSON.parse] produces, [undefined], and
    [Error] objects (what a collaborator or the runtime throws).  The fields of
    an object are its own properties; the first binding of a name counts. *)
#[local] Set Warnings "-register-all".

Inductive value : Type :=
| VUndefined
| VNull
| VBool (b : bool)
| VNumber (x : Num.number)
| VString (s : string)
| VArray (items : list value)
| VObject (fields : list (string * value))
| VError (name message : string).

(** What evaluating an expression gives: a result, or a thrown value. *)
Inductive outcome (A : Type) : Type :=
| Returned (a : A)
| Thrown (e : value).

Arguments Returned {A} a.
Arguments Thrown {A} e.

Definition outcome_bind {A B} (m : outcome A) (f : A -> outcome B) : outcome B :=
  match m with
  | Returned a => f a
  | Thrown e => Thrown e
  end.

Declare Scope outcome_scope.
Delimit Scope outcome_scope with outcome.
Notation "x <- m ;; k" := (outcome_bind m (fun x => k))
  (at level 61, m at next level, right associativity) : outcome_scope.

Module JS.

Import Num.

Fixpoint lookup (fields : list (string * value)) (k : string) : value :=
  match fields with
  | [] => VUndefined
  | (k', v) :: rest => if String.eqb k k' then v else lookup rest k
  end.

Fixpoint has_own (fields : list (string * value)) (k : string) : bool :=
  match fields with
  | [] => false
  | (k', _) :: rest => String.eqb k k' || has_own rest k
  end.

(** [v.k] for a [v] that is neither [undefined] nor [null] and a name [k]
    that no built-in prototype defines (the handlers read [query], [topK],
    [tag], [minImportance], [docId], [source] and, in the proofs, the fields
    of the objects they build). *)
Definition prop (v : value) (k : string) : value :=
  match v with
  | VObject fields => lookup fields k
  | _ => VUndefined
  end.

Definition typeof (v : value) : string :=
  match v with
  | VUndefined => "undefined"
  | VBool _ => "boolean"
  | VNumber _ => "number"
  | VString _ => "string"
  | VNull | VArray _ | VObject _ | VError _ _ => "object"
  end.

Definition ToBoolean (v : value) : bool :=
  match v with
  | VUndefined | VNull => false
  | VBool b => b
  | VNumber x => negb (is_zero x || isNaN x)
  | VString s => negb (Str.is_empty s)
  | VArray _ | VObject _ | VError _ _ => true
  end.

(** [a || b] *)
Definition or (a b : value) : value := if ToBoolean a then a else b.

(** A destructuring default, [{ x = d }]: used when the property is
    [undefined]. *)
Definition default (v d : value) : value :=
  match v with VUndefined => d | _ => v end.

Definition TypeError (message : string) : value := VError "TypeError" message.

(** What [OrdinaryToPrimitive] throws when neither [toString] nor [valueOf]
    yields a primitive (the text is V8's). *)
Definition cannot_convert : value :=
  TypeError "Cannot convert object to primitive value".

(** [ToString] (7.1.17).  An array is joined with commas
    ([Array.prototype.join]); an object answers through
    [Object.prototype.toString] unless an own property shadows [toString]:
    a parsed property is never callable, and [valueOf] gives the object
    back, so the conversion throws; an [Error] object answers through
    [Error.prototype.toString]. *)
Fixpoint ToString (v : value) : outcome string :=
  match v with
  | VUndefined => Returned "undefined"
  | VNull => Returned "null"
  | VBool b => Returned (if b then "true" else "false")
  | VNumber x => Returned (NumberToString.toString x)
  | VString s => Returned s
  | VArray items =>
      (fix join (l : list value) : outcome string :=
         match l with
         | [] => Returned ""
         | x :: r =>
             match
               match x with
               | VUndefined | VNull => Returned ""
               | _ => ToString x
               end
             with
             | Thrown e => Thrown e
             | Returned sx =>
                 match r with
                 | [] => Returned sx
                 | _ =>
                     match join r with
                     | Thrown e => Thrown e
                     | Returned sr => Returned (sx ++ "," ++ sr)
                     end
                 end
             end
         end) items
  | VObject fields =>
      if has_own fields "toString" then Thrown cannot_convert
      else Returned "[object Object]"
  | VError name message =>
      Returned (if Str.is_empty name then message
                else if Str.is_empty message then name
                else name ++ ": " ++ message)
  end.

(** [ToNumber] (7.1.4): an object is first converted to a primitive, which
    for the values above is the string [ToString] gives. *)
Definition ToNumber (v : value) : outcome number :=
  match v with
  | VUndefined => Returned NaN
  | VNull => Returned pos_zero
  | VBool b => Returned (if b then Num.of_Z 1 else pos_zero)
  | VNumber x => Returned x
  | VString s => Returned (StringToNumber.parse s)
  | VArray _ | VObject _ | VError _ _ =>
      (s <- ToString v ;; Returned (StringToNumber.parse s))%outcome
  end.

(** [Number(v)], [Number.isNaN(x)] and [String(v)]. *)
Definition Number (v : value) : outcome number := ToNumber v.
Definition Number_isNaN (x : number) : bool := isNaN x.
Definition String (v : value) : outcome string := ToString v.

End JS.

(** ** Collaborators and asynchronous code *)

(** What the embedding pipeline resolves to: a tensor whose [data] is a
    [Float32Array]. *)
Record Tensor : Type := { tensor_data : list Num.number }.

(** The options [embed] passes to the pipeline. *)
Record EmbedOptions : Type := { pooling : string; normalize : bool }.

(** A match of the vector search, as the client declares it. *)
Record ScoredPoint : Type :=
  { point_id : value; point_score : value; point_payload : value }.

(** The argument of [qdrant.search]. *)
Record SearchParams : Type :=
  { sp_vector : value;
    sp_limit : value;
    sp_filter : value;
    sp_with_payload : bool;
    sp_with_vector : bool }.

Record CollectionDescription : Type := { collection_name : string }.

(** What [qdrant.getCollections] resolves to; [collections] may be missing. *)
Record CollectionsResponse : Type :=
  { collections : option (list CollectionDescription) }.

(** What [res.status(s).json(b)] sends ([res.json(b)] sends status 200). *)
Record Response : Type := { status : Z; body : value }.

(** A computation that awaits collaborators: each node is one call, and its
    continuation receives what the call resolved to or rejected with. *)
Inductive proc (A : Type) : Type :=
| Done (a : A)
| AwaitEmbedder (text : value) (opts : EmbedOptions) (k : outcome Tensor -> proc A)
| AwaitSearch (collection : string) (params : SearchParams)
    (k : outcome (list ScoredPoint) -> proc A)
| AwaitGetCollections (k : outcome CollectionsResponse -> proc A)
| ConsoleError (e : value) (k : proc A).

Arguments Done {A} a.
Arguments AwaitEmbedder {A} text opts k.
Arguments AwaitSearch {A} collection params k.
Arguments AwaitGetCollections {A} k.
Arguments ConsoleError {A} e k.

(** An [async] function body: it ends by returning or by throwing.  A
    handler that ends by throwing has sent no response. *)
Definition async (A : Type) : Type := proc (outcome A).

Module Async.

Definition ret {A} (a : A) : async A := Done (Returned a).

(** A synchronous expression inside an [async] body. *)
Definition lift {A} (m : outcome A) : async A := Done m.

Fixpoint bind {A B} (m : async A) (f : A -> async B) : async B :=
  match m with
  | Done (Returned a) => f a
  | Done (Thrown e) => Done (Thrown e)
  | AwaitEmbedder t o k => AwaitEmbedder t o (fun r => bind (k r) f)
  | AwaitSearch c p k => AwaitSearch c p (fun r => bind (k r) f)
  | AwaitGetCollections k => AwaitGetCollections (fun r => bind (k r) f)
  | ConsoleError e k => ConsoleError e (bind k f)
  end.

(** [try { m } catch (e) { h e }] *)
Fixpoint try_catch {A} (m : async A) (h : value -> async A) : async A :=
  match m with
  | Done (Returned a) => Done (Returned a)
  | Done (Thrown e) => h e
  | AwaitEmbedder t o k => AwaitEmbedder t o (fun r => try_catch (k r) h)
  | AwaitSearch c p k => AwaitSearch c p (fun r => try_catch (k r) h)
  | AwaitGetCollections k => AwaitGetCollections (fun r => try_catch (k r) h)
  | ConsoleError e k => ConsoleError e (try_catch k h)
  end.

(** [await embedder(text, opts)] *)
Definition embedder (text : value) (opts : EmbedOptions) : async Tensor :=
  AwaitEmbedder text opts Done.

(** [await qdrant.search(collection, params)] *)
Definition qdrant_search (collection : string) (params : SearchParams)
  : async (list ScoredPoint) :=
  AwaitSearch collection params Done.

(** [await qdrant.getCollections()] *)
Definition qdrant_getCollections : async CollectionsResponse :=
  AwaitGetCollections Done.

(** [console.error(e)] *)
Definition console_error (e : value) : async unit :=
  ConsoleError e (Done (Returned tt)).

End Async.

Declare Scope async_scope.
Delimit Scope async_scope with async.
Notation "x <- m ;; k" := (Async.bind m (fun x => k))
  (at level 61, m at next level, right associativity) : async_scope.
Notation "m ;; k" := (Async.bind m (fun _ => k))
  (at level 61, right associativity) : async_scope.

(** *** Running a computation against its collaborators *)

Inductive event : Type :=
| EvEmbedder (text : value) (opts : EmbedOptions) (r : outcome Tensor)
| EvSearch (collection : string) (params : SearchParams) (r : outcome (list ScoredPoint))
| EvGetCollections (r : outcome CollectionsResponse)
| EvConsoleError (e : value).

(** The collaborators: each answers a call knowing what happened before. *)
Record world : Type :=
  { w_embedder : list event -> value -> EmbedOptions -> outcome Tensor;
    w_search : list event -> string -> SearchParams -> outcome (list ScoredPoint);
    w_getCollections : list event -> outcome CollectionsResponse }.

(** The events of a run, oldest first, and what the computation ends with. *)
Fixpoint run {A} (w : world) (past : list event) (p : proc A) : list event * A :=
  match p with
  | Done a => (past, a)
  | AwaitEmbedder t o k =>
      let r := w_embedder w past t o in
      run w (past ++ [EvEmbedder t o r]) (k r)
  | AwaitSearch c q k =>
      let r := w_search w past c q in
      run w (past ++ [EvSearch c q r]) (k r)
  | AwaitGetCollections k =>
      let r := w_getCollections w past in
      run w (past ++ [EvGetCollections r]) (k r)
  | ConsoleError e k => run w (past ++ [EvConsoleError e]) k
  end.

Definition is_collaborator_call (ev : event) : bool :=
  match ev with
  | EvConsoleError _ => false
  | _ => true
  end.

Definition is_embedder_call (ev : event) : bool :=
  match ev with EvEmbedder _ _ _ => true | _ => false end.

Definition is_search_call (ev : event) : bool :=
  match ev with EvSearch _ _ _ => true | _ => false end.

(** ** [server.js] *)

(** [Array.prototype.map] with a callback that may throw: elements are
    visited in order and the first throw ends the call. *)
Fixpoint array_map {A B} (f : A -> outcome B) (l : list A) : outcome (list B) :=
  match l with
  | [] => Returned []
  | x :: r =>
      (y <- f x ;; ys <- array_map f r ;; Returned (y :: ys))%outcome
  end.

(** [process.env] *)
Definition environment : Type := string -> option string.

(** The arguments [buildFilter] destructures. *)
Record FilterArgs : Type :=
  { tag : value; minImportance : value; docId : value; source : value }.

Module Server.

(** [process.env.QDRANT_COLLECTION || 'youtube_rag'] *)
Definition COLLECTION (env : environment) : string :=
  match env "QDRANT_COLLECTION" with
  | Some s => if Str.is_empty s then "youtube_rag" else s
  | None => "youtube_rag"
  end.

(** [embed(text)]: the mean-pooled, normalized embedding as an array. *)
Definition embed (text : value) : async value :=
  (out <- Async.embedder text {| pooling := "mean"; normalize := true |} ;;
   Async.ret (VArray (map VNumber (tensor_data out))))%async.

(** [{ key, match: { value } }] *)
Definition match_clause (key : string) (v : value) : value :=
  VObject [("key", VString key); ("match", VObject [("value", v)])].

(** [{ key, range: { gte } }] *)
Definition range_clause (key : string) (gte : Num.number) : value :=
  VObject [("key", VString key); ("range", VObject [("gte", VNumber gte)])].

(** [must.push(c)] *)
Definition push (must : list value) (c : value) : list value := must ++ [c].

Definition buildFilter (a : FilterArgs) : outcome value :=
  let must := [] in
  let must :=
    if JS.ToBoolean (tag a) then push must (match_clause "tags" (tag a))
    else must in
  (must <-
     (if JS.ToBoolean (minImportance a) then
        num <- JS.Number (minImportance a) ;;
        Returned (if negb (JS.Number_isNaN num)
                  then push must (range_clause "importance" num)
                  else must)
      else Returned must) ;;
   let must :=
     if JS.ToBoolean (docId a) then push must (match_clause "doc_id" (docId a))
     else must in
   let must :=
     if JS.ToBoolean (source a) then push must (match_clause "source" (source a))
     else must in
   (* must.length ? { must } : undefined *)
   Returned (match must with
             | [] => VUndefined
             | _ => VObject [("must", VArray must)]
             end))%outcome.

(** [res.status(s).json(b)] *)
Definition send (s : Z) (b : value) : Response := {| status := s; body := b |}.

(** [GET /api/health] *)
Definition health_handler : async Response :=
  Async.try_catch
    (info <- Async.qdrant_getCollections ;;
     Async.ret
       (send 200
          (VObject
             [("ok", VBool true);
              ("collections",
                match collections info with
                | Some cs => VArray (map (fun c => VString (collection_name c)) cs)
                | None => VUndefined
                end)])))%async
    (fun e =>
       (s <- Async.lift (JS.String e) ;;
        Async.ret (send 500 (VObject [("ok", VBool false); ("error", VString s)])))%async).

(** The callback of [result.map]. *)
Definition hit (h : ScoredPoint) : outcome value :=
  (id <- JS.String (point_id h) ;;
   Returned (VObject [("id", VString id);
                      ("score", point_score h);
                      ("payload", point_payload h)]))%outcome.

(** [POST /api/search]; [req_body] is [req.body]. *)
Definition search_handler (env : environment) (req_body : value) : async Response :=
  Async.try_catch
    (let b := JS.or req_body (VObject []) in
     let query := JS.prop b "query" in
     let topK := JS.default (JS.prop b "topK") (VNumber (Num.of_Z 5)) in
     let tag := JS.prop b "tag" in
     let minImportance := JS.prop b "minImportance" in
     let docId := JS.prop b "docId" in
     let source := JS.prop b "source" in
     if negb (JS.ToBoolean query) || negb (String.eqb (JS.typeof query) "string") then
       Async.ret (send 400 (VObject [("error", VString "query (string) is required")]))
     else
       (vector <- embed query ;;
        filter <- Async.lift
                    (buildFilter {| tag := tag; minImportance := minImportance;
                                    docId := docId; source := source |}) ;;
        limit <- Async.lift (JS.Number topK) ;;
        result <- Async.qdrant_search (COLLECTION env)
                    {| sp_vector := vector;
                       sp_limit := JS.or (VNumber limit) (VNumber (Num.of_Z 5));
                       sp_filter := filter;
                       sp_with_payload := true;
                       sp_with_vector := false |} ;;
        hits <- Async.lift (array_map hit result) ;;
        Async.ret
          (send 200
             (VObject [("count", VNumber (Num.of_nat (List.length result)));
                       ("hits", VArray hits)])))%async)
    (fun e =>
       (Async.console_error e ;;
        s <- Async.lift (JS.String e) ;;
        Async.ret (send 500 (VObject [("error", VString s)])))%async).

End Server.

(** ** Reading a filter *)

Module Filter.

(** The clauses of a filter: the elements of its [must] list; none for
    [undefined]. *)
Definition must_of (f : value) : list value :=
  match JS.prop f "must" with
  | VArray l => l
  | _ => []
  end.

Definition is_undefined (v : value) : bool :=
  match v with VUndefined => true | _ => false end.

(** A clause [{ key, range: ... }]. *)
Definition is_range (c : value) : bool := negb (is_undefined (JS.prop c "range")).

(** A clause on the stored attribute [k]. *)
Definition keyed (k : string) (c : value) : bool :=
  match JS.prop c "key" with
  | VString k' => String.eqb k k'
  | _ => false
  end.

Definition range_clauses (f : value) : list value := filter is_range (must_of f).

Definition clauses_keyed (k : string) (f : value) : list value :=
  filter (keyed k) (must_of f).

(** [{ must }] for a non-empty list, [undefined] otherwise. *)
Definition wrap (must : list value) : value :=
  match must with
  | [] => VUndefined
  | _ => VObject [("must", VArray must)]
  end.

(** The clause a truthy field contributes. *)
Definition clause_if (v c : value) : list value :=
  if JS.ToBoolean v then [c] else [].

(** What [minImportance] contributes. *)
Definition importance_clauses (v : value) : outcome (list value) :=
  if JS.ToBoolean v then
    (num <- JS.Number v ;;
     Returned (if Num.isNaN num then []
               else [Server.range_clause "importance" num]))%outcome
  else Returned [].

(** The arguments with one field taken away. *)
Definition without_tag (a : FilterArgs) : FilterArgs :=
  {| tag := VUndefined; minImportance := minImportance a;
     docId := docId a; source := source a |}.
Definition without_minImportance (a : FilterArgs) : FilterArgs :=
  {| tag := tag a; minImportance := VUndefined;
     docId := docId a; source := source a |}.
Definition without_docId (a : FilterArgs) : FilterArgs :=
  {| tag := tag a; minImportance := minImportance a;
     docId := VUndefined; source := source a |}.
Definition without_source (a : FilterArgs) : FilterArgs :=
  {| tag := tag a; minImportance := minImportance a;
     docId := docId a; source := VUndefined |}.

Definition with_tag (v : value) (a : FilterArgs) : FilterArgs :=
  {| tag := v; minImportance := minImportance a;
     docId := docId a; source := source a |}.
Definition with_minImportance (v : value) (a : FilterArgs) : FilterArgs :=
  {| tag := tag a; minImportance := v;
     docId := docId a; source := source a |}.
Definition with_docId (v : value) (a : FilterArgs) : FilterArgs :=
  {| tag := tag a; minImportance := minImportance a;
     docId := v; source := source a |}.
Definition with_source (v : value) (a : FilterArgs) : FilterArgs :=
  {| tag := tag a; minImportance := minImportance a;
     docId := docId a; source := v |}.

End Filter.

(** ** The handlers against their collaborators *)

(** A run on a fresh history. *)
Definition exec {A} (w : world) (p : proc A) : list event * A := run w [] p.

(** The options [embed] passes. *)
Definition mean_normalized : EmbedOptions := {| pooling := "mean"; normalize := true |}.

(** A [query] the handler accepts: a non-empty string. *)
Definition valid_query (q : value) : Prop := exists s, q = VString s /\ s <> "".

(** A [query] that is missing, empty or not text. *)
Definition invalid_query (q : value) : Prop :=
  q = VUndefined \/ q = VString "" \/ JS.typeof q <> "string".

(** The body the handler destructures: [req.body || {}]. *)
Definition body_of (req_body : value) : value := JS.or req_body (VObject []).

(** The arguments the handler passes to [buildFilter]. *)
Definition filter_args (b : value) : FilterArgs :=
  {| tag := JS.prop b "tag"; minImportance := JS.prop b "minImportance";
     docId := JS.prop b "docId"; source := JS.prop b "source" |}.

(** [topK] after the destructuring default. *)
Definition topK_of (b : value) : value :=
  JS.default (JS.prop b "topK") (VNumber (Num.of_Z 5)).

Definition bad_request : Response :=
  Server.send 400 (VObject [("error", VString "query (string) is required")]).

Definition server_error (s : string) : Response :=
  Server.send 500 (VObject [("error", VString s)]).

(** [Array.from(out.data)] *)
Definition vector_of (out : Tensor) : value := VArray (map VNumber (tensor_data out)).

(** The object [qdrant.search] receives, for the coerced [topK]. *)
Definition search_params (vector : value) (limit : Num.number) (f : value) : SearchParams :=
  {| sp_vector := vector;
     sp_limit := JS.or (VNumber limit) (VNumber (Num.of_Z 5));
     sp_filter := f;
     sp_with_payload := true;
     sp_with_vector := false |}.

(** The [catch] block once the error is logged: the 500 response, unless
    stringifying the error throws in turn. *)
Definition failed (e : value) : outcome Response :=
  (s <- JS.String e ;; Returned (server_error s))%outcome.

Definition found (result : list ScoredPoint) (hits : list value) : Response :=
  Server.send 200
    (VObject [("count", VNumber (Num.of_nat (List.length result)));
              ("hits", VArray hits)]).

(** The paths through [POST /api/search]: the events of a run and how it
    ends, for the body [b] and the collaborators [w]. *)
Inductive search_run (env : environment) (w : world) (b : value)
  : list event -> outcome Response -> Prop :=
| run_invalid :
    invalid_query (JS.prop b "query") ->
    search_run env w b [] (Returned bad_request)
| run_embed_throws e :
    valid_query (JS.prop b "query") ->
    w_embedder w [] (JS.prop b "query") mean_normalized = Thrown e ->
    search_run env w b
      [EvEmbedder (JS.prop b "query") mean_normalized (Thrown e); EvConsoleError e]
      (failed e)
| run_filter_throws out e :
    valid_query (JS.prop b "query") ->
    w_embedder w [] (JS.prop b "query") mean_normalized = Returned out ->
    Server.buildFilter (filter_args b) = Thrown e ->
    search_run env w b
      [EvEmbedder (JS.prop b "query") mean_normalized (Returned out); EvConsoleError e]
      (failed e)
| run_topK_throws out f e :
    valid_query (JS.prop b "query") ->
    w_embedder w [] (JS.prop b "query") mean_normalized = Returned out ->
    Server.buildFilter (filter_args b) = Returned f ->
    JS.Number (topK_of b) = Thrown e ->
    search_run env w b
      [EvEmbedder (JS.prop b "query") mean_normalized (Returned out); EvConsoleError e]
      (failed e)
| run_search_throws out f limit e :
    valid_query (JS.prop b "query") ->
    w_embedder w [] (JS.prop b "query") mean_normalized = Returned out ->
    Server.buildFilter (filter_args b) = Returned f ->
    JS.Number (topK_of b) = Returned limit ->
    w_search w [EvEmbedder (JS.prop b "query") mean_normalized (Returned out)]
      (Server.COLLECTION env) (search_params (vector_of out) limit f) = Thrown e ->
    search_run env w b
      [EvEmbedder (JS.prop b "query") mean_normalized (Returned out);
       EvSearch (Server.COLLECTION env) (search_params (vector_of out) limit f) (Thrown e);
       EvConsoleError e]
      (failed e)
| run_hit_throws out f limit result e :
    valid_query (JS.prop b "query") ->
    w_embedder w [] (JS.prop b "query") mean_normalized = Returned out ->
    Server.buildFilter (filter_args b) = Returned f ->
    JS.Number (topK_of b) = Returned limit ->
    w_search w [EvEmbedder (JS.prop b "query") mean_normalized (Returned out)]
      (Server.COLLECTION env) (search_params (vector_of out) limit f) = Returned result ->
    array_map Server.hit result = Thrown e ->
    search_run env w b
      [EvEmbedder (JS.prop b "query") mean_normalized (Returned out);
       EvSearch (Server.COLLECTION env) (search_params (vector_of out) limit f)
         (Returned result);
       EvConsoleError e]
      (failed e)
| run_found out f limit result hits :
    valid_query (JS.prop b "query") ->
    w_embedder w [] (JS.prop b "query") mean_normalized = Returned out ->
    Server.buildFilter (filter_args b) = Returned f ->
    JS.Number (topK_of b) = Returned limit ->
    w_search w [EvEmbedder (JS.prop b "query") mean_normalized (Returned out)]
      (Server.COLLECTION env) (search_params (vector_of out) limit f) = Returned result ->
    array_map Server.hit result = Returned hits ->
    search_run env w b
      [EvEmbedder (JS.prop b "query") mean_normalized (Returned out);
       EvSearch (Server.COLLECTION env) (search_params (vector_of out) limit f)
         (Returned result)]
      (Returned (found result hits)).

(** A hit built from a match: the identifier as text, score and payload as
    they came. *)
Definition hit_of (h : ScoredPoint) (x : value) : Prop :=
  exists s, JS.String (point_id h) = Returned s
            /\ x = VObject [("id", VString s);
                            ("score", point_score h);
                            ("payload", point_payload h)].

(** The values that are not objects. *)
Definition primitive (v : value) : bool :=
  match v with
  | VArray _ | VObject _ | VError _ _ => false
  | _ => true
  end.

Definition is_negative (x : Num.number) : bool :=
  match x with
  | S754_finite true _ _ | S754_infinity true => true
  | _ => false
  end.

Definition unhealthy (s : string) : Response :=
  Server.send 500 (VObject [("ok", VBool false); ("error", VString s)]).

Definition healthy (names : list string) : Response :=
  Server.send 200 (VObject [("ok", VBool true); ("collections", VArray (map VString names))]).

(** ** The claims of the specification that the code does not meet *)

(** C1, as the spec states it, at the arguments [a]: a range clause on
    [importance] is contributed exactly when [minImportance] converts to a
    number that is not NaN. *)
Definition minImportance_as_stated (a : FilterArgs) : Prop :=
  (exists n, JS.Number (minImportance a) = Returned n /\ Num.isNaN n = false)
  <->
  (exists f n, Server.buildFilter a = Returned f
               /\ JS.Number (minImportance a) = Returned n
               /\ Filter.range_clauses f = [Server.range_clause "importance" n]).

(** C4, as the spec states it, at the arguments [a]: every field that is
    present gives one equality clause on its attribute, in one [must] list. *)
Definition equality_clauses_as_stated (a : FilterArgs) : Prop :=
  forall f, Server.buildFilter a = Returned f ->
    (tag a <> VUndefined ->
     Filter.clauses_keyed "tags" f = [Server.match_clause "tags" (tag a)])
    /\ (docId a <> VUndefined ->
        Filter.clauses_keyed "doc_id" f = [Server.match_clause "doc_id" (docId a)])
    /\ (source a <> VUndefined ->
        Filter.clauses_keyed "source" f = [Server.match_clause "source" (source a)])
    /\ f = Filter.wrap (Filter.must_of f).

(** C2, as the spec states it: the limit is the coercion of [topK], or 5
    when that is NaN ([topK] missing or not numeric); zero and negative values
    are passed through. *)
Definition limit_as_stated (topK : value) : outcome value :=
  (n <- JS.Number topK ;;
   Returned (VNumber (if Num.isNaN n then Num.of_Z 5 else n)))%outcome.

Definition topK_as_stated (env : environment) (w : world) (req_body : value) : Prop :=
  forall c p r,
    In (EvSearch c p r) (fst (exec w (Server.search_handler env req_body))) ->
    limit_as_stated (JS.prop (body_of req_body) "topK") = Returned (sp_limit p).

(** ** Concrete requests and collaborators *)

(** The request [{ minImportance: 0 }]. *)
Definition zero_importance : FilterArgs :=
  {| tag := VUndefined; minImportance := VNumber Num.pos_zero;
     docId := VUndefined; source := VUndefined |}.

(** The request [{ tag: "pets", minImportance: "2" }]. *)
Definition pets_importance : FilterArgs :=
  {| tag := VString "pets"; minImportance := VString "2";
     docId := VUndefined; source := VUndefined |}.

(** The request [{ tag: "" }]. *)
Definition empty_tag : FilterArgs :=
  {| tag := VString ""; minImportance := VUndefined;
     docId := VUndefined; source := VUndefined |}.

(** The request [{ tag: "pets", docId: "d1", source: "youtube" }]. *)
Definition three_fields : FilterArgs :=
  {| tag := VString "pets"; minImportance := VUndefined;
     docId := VString "d1"; source := VString "youtube" |}.

Definition three_clauses : value :=
  VObject [("must", VArray [Server.match_clause "tags" (VString "pets");
                            Server.match_clause "doc_id" (VString "d1");
                            Server.match_clause "source" (VString "youtube")])].

Definition no_env : environment := fun _ => None.

(** Collaborators that answer: an empty embedding, the given matches, one
    collection. *)
Definition calm (points : list ScoredPoint) : world :=
  {| w_embedder := fun _ _ _ => Returned {| tensor_data := [] |};
     w_search := fun _ _ _ => Returned points;
     w_getCollections :=
       fun _ => Returned {| collections := Some [{| collection_name := "youtube_rag" |}] |} |}.

Definition connection_refused : value := VError "Error" "fetch failed".

(** A vector database that cannot be reached. *)
Definition unreachable : world :=
  {| w_embedder := fun _ _ _ => Returned {| tensor_data := [] |};
     w_search := fun _ _ _ => Thrown connection_refused;
     w_getCollections := fun _ => Thrown connection_refused |}.

(** [{ "query": "cats" }] *)
Definition cats : value := VObject [("query", VString "cats")].

(** [{ "query": "cats", "topK": 0 }] *)
Definition cats_top_zero : value :=
  VObject [("query", VString "cats"); ("topK", VNumber Num.pos_zero)].

(** [{ "query": "cats", "topK": -1 }] *)
Definition cats_top_negative : value :=
  VObject [("query", VString "cats"); ("topK", VNumber (Num.of_Z (-1)))].

(** [{ "query": 7 }] *)
Definition numeric_query : value := VObject [("query", VNumber (Num.of_Z 7))].

Definition two_points : list ScoredPoint :=
  [ {| point_id := VNumber (Num.of_Z 42);
       point_score := VNumber (Num.of_decimal false 87 (-2));
       point_payload := VObject [("tags", VString "pets")] |};
    {| point_id := VString "5c56c793-69f3-4fbf-87e6-c4bf54c28c26";
       point_score := VNumber (Num.of_decimal false 5 (-1));
       point_payload := VNull |} ].

Definition two_hits : list value :=
  [VObject [("id", VString "42");
            ("score", VNumber (Num.of_decimal false 87 (-2)));
            ("payload", VObject [("tags", VString "pets")])];
   VObject [("id", VString "5c56c793-69f3-4fbf-87e6-c4bf54c28c26");
            ("score", VNumber (Num.of_decimal false 5 (-1)));
            ("payload", VNull)]].

(** ** Configuration *)

Module Config.

(** [process.env.NAME]: a string, or [undefined] when the variable is unset. *)
Definition env_get (env : environment) (name : string) : value :=
  match env name with
  | Some s => VString s
  | None => VUndefined
  end.




(** [process.env.QDRANT_COLLECTION || 'youtube_rag'] as a value. *)
Definition COLLECTION (env : environment) : value :=
  JS.or (env_get env "QDRANT_COLLECTION") (VString "youtube_rag").


End Config.

(** ** Observations on values, clauses and events *)

(** The values [String] and [Number] convert without throwing: an object
    must not shadow [toString], and an array must hold such values only. *)
Fixpoint convertible (v : value) : bool :=
  match v with
  | VArray items =>
      (fix all (l : list value) : bool :=
         match l with
         | [] => true
         | x :: r => convertible x && all r
         end) items
  | VObject fields => negb (JS.has_own fields "toString")
  | _ => true
  end.

(** [Error.prototype.toString] for a name and a message. *)
Definition error_text (name message : string) : string :=
  if Str.is_empty name then message
  else if Str.is_empty message then name
  else name ++ ": " ++ message.

(** The stored attributes a filter can constrain. *)
Definition stored_attributes : list string := ["tags"; "importance"; "doc_id"; "source"].

Definition is_console_error (ev : event) : bool :=
  match ev with EvConsoleError _ => true | _ => false end.

(** [{ "query": "cats", "minImportance": { "toString": null } }] *)
Definition cats_shadowed : value :=
  VObject [("query", VString "cats");
           ("minImportance", VObject [("toString", VNull)])].

(** [{ minImportance: { toString: null } }] *)
Definition shadowed_importance : FilterArgs :=
  {| tag := VUndefined; minImportance := VObject [("toString", VNull)];
     docId := VUndefined; source := VUndefined |}.

(** An embedder that throws an object that cannot be stringified. *)
Definition hostile : world :=
  {| w_embedder := fun _ _ _ => Thrown (VObject [("toString", VNull)]);
     w_search := fun _ _ _ => Returned [];
     w_getCollections := fun _ => Thrown (VObject [("toString", VNull)]) |}.

(** An environment that sets the collection and leaves the key empty. *)
Definition staging_env : environment :=
  fun name =>
    if String.eqb name "QDRANT_COLLECTION" then Some "staging"
    else if String.eqb name "QDRANT_API_KEY" then Some ""
    else None.

(** An embedder that returns three numbers. *)
Definition three_floats : Tensor :=
  {| tensor_data := [Num.of_decimal false 5 (-1); Num.neg_zero; Num.of_Z 1] |}.

Definition embedding_three : world :=
  {| w_embedder := fun _ _ _ => Returned three_floats;
     w_search := fun _ _ _ => Returned [];
     w_getCollections := fun _ => Returned {| collections := None |} |}.

(** ** The coercions at concrete values *)

Example of_Z_3 : Num.of_Z 3 = S754_finite false 6755399441055744 (-51).
Proof. reflexivity. Qed.

Example of_decimal_tenth :
  Num.of_decimal false 1 (-1) = S754_finite false 7205759403792794 (-56).
Proof. reflexivity. Qed.

Example parse_3 : StringToNumber.parse "3" = Num.of_Z 3.
Proof. reflexivity. Qed.

Example parse_abc : StringToNumber.parse "abc" = Num.NaN.
Proof. reflexivity. Qed.

Example parse_empty : StringToNumber.parse "  " = Num.pos_zero.
Proof. reflexivity. Qed.

Example parse_hex : StringToNumber.parse " 0x1F " = Num.of_Z 31.
Proof. reflexivity. Qed.

Example parse_exp : StringToNumber.parse "-1.5e3" = Num.of_Z (-1500).
Proof. reflexivity. Qed.

Example parse_dot : StringToNumber.parse "." = Num.NaN.
Proof. reflexivity. Qed.

Example parse_neg_zero : StringToNumber.parse "-0" = Num.neg_zero.
Proof. reflexivity. Qed.

Example parse_tenth : StringToNumber.parse ".1" = Num.of_decimal false 1 (-1).
Proof. reflexivity. Qed.

Example parse_inf : StringToNumber.parse "1e999" = Num.infinity false.
Proof. vm_compute. reflexivity. Qed.

Example parse_tiny : StringToNumber.parse "1e-999" = Num.pos_zero.
Proof. vm_compute. reflexivity. Qed.

Example parse_min : StringToNumber.parse "5e-324" = S754_finite false 1 (-1074).
Proof. vm_compute. reflexivity. Qed.

Example parse_half_min : StringToNumber.parse "2.4703282292062327e-324" = Num.pos_zero.
Proof. vm_compute. reflexivity. Qed.

Example parse_max :
  StringToNumber.parse "1.7976931348623157e308"
  = S754_finite false 9007199254740991 971.
Proof. vm_compute. reflexivity. Qed.

Example parse_trailing : StringToNumber.parse "12px" = Num.NaN.
Proof. reflexivity. Qed.

Example parse_1e : StringToNumber.parse "1e" = Num.NaN.
Proof. reflexivity. Qed.

Example parse_5dot : StringToNumber.parse "5." = Num.of_Z 5.
Proof. reflexivity. Qed.

Example parse_0x : StringToNumber.parse "0x" = Num.NaN.
Proof. reflexivity. Qed.

Example parse_9007199254740993 :
  StringToNumber.parse "9007199254740993" = Num.of_Z 9007199254740992.
Proof. reflexivity. Qed.

Example toString_3 : NumberToString.toString (Num.of_Z 3) = "3".
Proof. vm_compute. reflexivity. Qed.

Example toString_100 : NumberToString.toString (Num.of_Z 100) = "100".
Proof. vm_compute. reflexivity. Qed.

Example toString_tenth : NumberToString.toString (Num.of_decimal false 1 (-1)) = "0.1".
Proof. vm_compute. reflexivity. Qed.

Example toString_2_53 :
  NumberToString.toString (Num.of_Z 9007199254740993) = "9007199254740992".
Proof. vm_compute. reflexivity. Qed.

Example toString_1e21 : NumberToString.toString (Num.of_Z (10 ^ 21)) = "1e+21".
Proof. vm_compute. reflexivity. Qed.

Example toString_1e20 :
  NumberToString.toString (Num.of_Z (10 ^ 20)) = "100000000000000000000".
Proof. vm_compute. reflexivity. Qed.

Example toString_big :
  NumberToString.toString (Num.of_Z 123456789012345678901) = "123456789012345680000".
Proof. vm_compute. reflexivity. Qed.

Example toString_small :
  NumberToString.toString (StringToNumber.parse "0.000001") = "0.000001".
Proof. vm_compute. reflexivity. Qed.

Example toString_smaller :
  NumberToString.toString (StringToNumber.parse "0.00000015") = "1.5e-7".
Proof. vm_compute. reflexivity. Qed.

Example toString_min :
  NumberToString.toString (S754_finite false 1 (-1074)) = "5e-324".
Proof. vm_compute. reflexivity. Qed.

Example toString_max :
  NumberToString.toString (S754_finite false 9007199254740991 971)
  = "1.7976931348623157e+308".
Proof. vm_compute. reflexivity. Qed.

Example toString_sum :
  NumberToString.toString
    (SFadd Num.prec Num.emax (StringToNumber.parse "0.1") (StringToNumber.parse "0.2"))
  = "0.30000000000000004".
Proof. vm_compute. reflexivity. Qed.

Example toString_neg : NumberToString.toString (StringToNumber.parse "-12.5") = "-12.5".
Proof. vm_compute. reflexivity. Qed.

Example toString_1e23 : NumberToString.toString (StringToNumber.parse "1e23") = "1e+23".
Proof. vm_compute. reflexivity. Qed.

Example toString_5e_7 : NumberToString.toString (StringToNumber.parse "5e-7") = "5e-7".
Proof. vm_compute. reflexivity. Qed.

Example toString_2_70 :
  NumberToString.toString (Num.of_Z (2 ^ 70)) = "1.1805916207174113e+21".
Proof. vm_compute. reflexivity. Qed.

Example Number_array : JS.Number (VArray [VString "7"]) = Returned (Num.of_Z 7).
Proof. reflexivity. Qed.

Example Number_object : JS.Number (VObject [("a", VNull)]) = Returned Num.NaN.
Proof. reflexivity. Qed.

Example Number_shadowed :
  JS.Number (VObject [("toString", VNull)]) = Thrown JS.cannot_convert.
Proof. reflexivity. Qed.

Example String_array :
  JS.String (VArray [VNumber (Num.of_Z 1); VNull; VArray [VBool true; VString "x"]])
  = Returned "1,,true,x".
Proof. vm_compute. reflexivity. Qed.

Example String_error : JS.String (VError "Error" "fetch failed") = Returned "Error: fetch failed".
Proof. reflexivity. Qed.

Example buildFilter_pets :
  Server.buildFilter
    {| tag := VString "pets"; minImportance := VNumber (Num.of_Z 2);
       docId := VUndefined; source := VUndefined |}
  = Returned
      (VObject
         [("must",
            VArray [Server.match_clause "tags" (VString "pets");
                    Server.range_clause "importance" (Num.of_Z 2)])]).
Proof. reflexivity. Qed.

Example buildFilter_none :
  Server.buildFilter
    {| tag := VUndefined; minImportance := VUndefined;
       docId := VUndefined; source := VUndefined |}
  = Returned VUndefined.
Proof. reflexivity. Qed.

Example buildFilter_shadowed :
  Server.buildFilter
    {| tag := VUndefined; minImportance := VObject [("toString", VNull)];
       docId := VUndefined; source := VUndefined |}
  = Thrown JS.cannot_convert.
Proof. reflexivity. Qed.

(** ** Properties of [buildFilter] *)

Section BuildFilter.

Import Filter.

(** [buildFilter] lists the clauses in the order tags, importance, doc_id,
    source and wraps them. *)
Lemma buildFilter_clauses (a : FilterArgs) :
  Server.buildFilter a =
    (ic <- importance_clauses (minImportance a) ;;
     Returned
       (wrap (clause_if (tag a) (Server.match_clause "tags" (tag a))
              ++ ic
              ++ clause_if (docId a) (Server.match_clause "doc_id" (docId a))
              ++ clause_if (source a) (Server.match_clause "source" (source a)))))%outcome.
Proof.
  unfold Server.buildFilter, importance_clauses, clause_if, Server.push, JS.Number_isNaN.
  destruct (JS.ToBoolean (tag a)), (JS.ToBoolean (minImportance a));
    simpl; try destruct (JS.Number (minImportance a)) as [num|e]; simpl;
    try destruct (Num.isNaN num); simpl;
    destruct (JS.ToBoolean (docId a)), (JS.ToBoolean (source a)); reflexivity.
Qed.

Lemma must_of_wrap (l : list value) : must_of (wrap l) = l.
Proof. destruct l; reflexivity. Qed.

Lemma range_of_match (k : string) (v c : value) :
  filter is_range (clause_if v (Server.match_clause k c)) = [].
Proof. unfold clause_if. now destruct (JS.ToBoolean v). Qed.

(** The range clauses of the built filter are those [minImportance]
    contributes. *)
Lemma range_clauses_buildFilter (a : FilterArgs) (f : value) :
  Server.buildFilter a = Returned f ->
  exists ic, importance_clauses (minImportance a) = Returned ic
             /\ range_clauses f = filter is_range ic.
Proof.
  rewrite buildFilter_clauses.
  destruct (importance_clauses (minImportance a)) as [ic|e]; simpl; [|discriminate].
  intros [= <-]. exists ic. split; [reflexivity|].
  unfold range_clauses. rewrite must_of_wrap, !filter_app, !range_of_match.
  now rewrite app_nil_r.
Qed.

(** C1 (counterexample): [minImportance: 0] is a valid number, and no range
    clause is built for it. *)
Lemma minImportance_zero_dropped : ~ minImportance_as_stated zero_importance.
Proof.
  intros [H _].
  destruct H as (f & n & Hf & _ & Hr).
  - exists Num.pos_zero. split; reflexivity.
  - vm_compute in Hf. injection Hf as <-. discriminate Hr.
Qed.

(** C1 (amended): [minImportance] contributes exactly one range clause, on
    [importance] and with [gte] its numeric coercion, if and only if it is
    truthy and its coercion is not NaN; a falsy or unparsable value gives
    the filter of a request without [minImportance]; ["abc"] is dropped and
    [3] gives one range clause with bound 3. *)
Theorem buildFilter_minImportance (a : FilterArgs) :
  ((exists f n, Server.buildFilter a = Returned f
                /\ JS.Number (minImportance a) = Returned n
                /\ range_clauses f = [Server.range_clause "importance" n])
   <->
   (JS.ToBoolean (minImportance a) = true
    /\ exists n, JS.Number (minImportance a) = Returned n /\ Num.isNaN n = false))
  /\ (JS.ToBoolean (minImportance a) = false
      \/ JS.Number (minImportance a) = Returned Num.NaN ->
      Server.buildFilter a = Server.buildFilter (without_minImportance a))
  /\ Server.buildFilter (with_minImportance (VString "abc") a)
     = Server.buildFilter (without_minImportance a)
  /\ (exists f,
        Server.buildFilter (with_minImportance (VNumber (Num.of_Z 3)) a) = Returned f
        /\ range_clauses f = [Server.range_clause "importance" (Num.of_Z 3)]).
Proof.
  split; [split | split; [|split]].
  - intros (f & n & Hf & Hn & Hr).
    apply range_clauses_buildFilter in Hf as (ic & Hic & Hrange).
    unfold importance_clauses in Hic. rewrite Hn in Hic.
    destruct (JS.ToBoolean (minImportance a)); simpl in Hic;
      [destruct (Num.isNaN n) eqn:E|];
      try (injection Hic as <-; rewrite Hr in Hrange; discriminate).
    split; [reflexivity|]. exists n. now split.
  - intros (Ht & n & Hn & Hnan).
    rewrite buildFilter_clauses. unfold importance_clauses.
    rewrite Ht, Hn; simpl. rewrite Hnan.
    eexists; exists n. split; [reflexivity | split; [reflexivity|]].
    unfold range_clauses.
    rewrite must_of_wrap, !filter_app, !range_of_match. reflexivity.
  - intros H. rewrite !buildFilter_clauses. unfold importance_clauses; simpl.
    destruct H as [-> | H]; [reflexivity|].
    rewrite H; simpl. now destruct (JS.ToBoolean (minImportance a)).
  - rewrite !buildFilter_clauses. reflexivity.
  - rewrite buildFilter_clauses. eexists; split; [reflexivity|].
    unfold range_clauses.
    rewrite must_of_wrap, !filter_app, !range_of_match. reflexivity.
Qed.

(** For [{ tag: "pets", minImportance: "2" }] and for [{ minImportance: 0 }]. *)
Lemma buildFilter_minImportance_witness :
  (exists f n, Server.buildFilter pets_importance = Returned f
               /\ JS.Number (minImportance pets_importance) = Returned n
               /\ range_clauses f = [Server.range_clause "importance" n])
  /\ Server.buildFilter zero_importance
     = Server.buildFilter (without_minImportance zero_importance).
Proof.
  split.
  - apply (proj1 (buildFilter_minImportance pets_importance)).
    split; [reflexivity|]. exists (Num.of_Z 2). split; reflexivity.
  - apply (proj1 (proj2 (buildFilter_minImportance zero_importance))).
    left. reflexivity.
Defined.

End BuildFilter.

Section EqualityClauses.

Import Filter.

(** C4 (counterexample): a [tag] that is present and empty gives no clause. *)
Lemma empty_tag_no_clause : ~ equality_clauses_as_stated empty_tag.
Proof.
  intros H. specialize (H VUndefined eq_refl) as [Htag _].
  assert (Hpresent : tag empty_tag <> VUndefined) by discriminate.
  apply Htag in Hpresent. discriminate Hpresent.
Qed.

Lemma keyed_clause_if (k k' : string) (v : value) :
  filter (keyed k) (clause_if v (Server.match_clause k' v))
  = if String.eqb k k' then clause_if v (Server.match_clause k' v) else [].
Proof.
  unfold clause_if, keyed. destruct (JS.ToBoolean v); simpl.
  - now destruct (String.eqb k k').
  - now destruct (String.eqb k k').
Qed.

Lemma keyed_importance (k : string) (v : value) (ic : list value) :
  importance_clauses v = Returned ic ->
  filter (keyed k) ic = if String.eqb k "importance" then ic else [].
Proof.
  unfold importance_clauses.
  destruct (JS.ToBoolean v); simpl.
  - destruct (JS.Number v) as [n|e]; simpl; [|discriminate].
    intros [= <-]. destruct (Num.isNaN n); simpl.
    + now destruct (String.eqb k "importance").
    + unfold keyed; simpl. now destruct (String.eqb k "importance").
  - intros [= <-]. now destruct (String.eqb k "importance").
Qed.

(** C4 (amended): when [buildFilter] returns, each of [tag], [docId] and
    [source] that is truthy contributes exactly one equality clause, on
    [tags], [doc_id] and [source] respectively, a falsy one contributes none,
    and all clauses sit in one [must] list (no filter when there is none). *)
Theorem buildFilter_equality_clauses (a : FilterArgs) (f : value) :
  Server.buildFilter a = Returned f ->
  clauses_keyed "tags" f = clause_if (tag a) (Server.match_clause "tags" (tag a))
  /\ clauses_keyed "doc_id" f
     = clause_if (docId a) (Server.match_clause "doc_id" (docId a))
  /\ clauses_keyed "source" f
     = clause_if (source a) (Server.match_clause "source" (source a))
  /\ f = wrap (must_of f)
  /\ exists ic,
       importance_clauses (minImportance a) = Returned ic
       /\ must_of f
          = (clause_if (tag a) (Server.match_clause "tags" (tag a))
             ++ ic
             ++ clause_if (docId a) (Server.match_clause "doc_id" (docId a))
             ++ clause_if (source a) (Server.match_clause "source" (source a)))%list.
Proof.
  rewrite buildFilter_clauses.
  case_eq (importance_clauses (minImportance a)); simpl; [|discriminate].
  intros ic Hic [= <-].
  unfold clauses_keyed. rewrite must_of_wrap.
  rewrite !filter_app, !keyed_clause_if, !(keyed_importance _ _ _ Hic); simpl.
  rewrite !app_nil_r.
  repeat (split; [reflexivity|]).
  exists ic. split; reflexivity.
Qed.

(** For [{ tag: "pets", docId: "d1", source: "youtube" }]. *)
Lemma buildFilter_equality_clauses_witness :
  Server.buildFilter three_fields = Returned three_clauses
  /\ clauses_keyed "tags" three_clauses = [Server.match_clause "tags" (VString "pets")]
  /\ clauses_keyed "doc_id" three_clauses = [Server.match_clause "doc_id" (VString "d1")].
Proof.
  assert (H : Server.buildFilter three_fields = Returned three_clauses) by reflexivity.
  split; [exact H | split].
  - apply (proj1 (buildFilter_equality_clauses three_fields three_clauses H)).
  - apply (proj1 (proj2 (buildFilter_equality_clauses three_fields three_clauses H))).
Defined.

(** C10: a [tag], [docId] or [source] equal to the empty string gives the
    filter of a request without that field. *)
Theorem buildFilter_empty_string (a : FilterArgs) :
  Server.buildFilter (with_tag (VString "") a) = Server.buildFilter (without_tag a)
  /\ Server.buildFilter (with_docId (VString "") a)
     = Server.buildFilter (without_docId a)
  /\ Server.buildFilter (with_source (VString "") a)
     = Server.buildFilter (without_source a).
Proof.
  rewrite !buildFilter_clauses. repeat split.
Qed.

End EqualityClauses.

Lemma array_map_hit (result : list ScoredPoint) :
  forall hits, array_map Server.hit result = Returned hits -> Forall2 hit_of result hits.
Proof.
  induction result as [|h result IH]; intros hits; simpl.
  - intros [= <-]. constructor.
  - unfold Server.hit at 1.
    destruct (JS.String (point_id h)) as [s|e] eqn:Hs; simpl; [|discriminate].
    destruct (array_map Server.hit result) as [hs|e]; simpl; [|discriminate].
    intros [= <-]. constructor.
    + exists s. now split.
    + now apply IH.
Qed.

Lemma String_primitive (v : value) :
  primitive v = true -> exists s, JS.String v = Returned s.
Proof. destruct v; try discriminate; intros _; eexists; reflexivity. Qed.

(** Matches whose identifiers are primitive (numbers, strings) all map to
    hits. *)
Lemma array_map_hit_primitive (result : list ScoredPoint) :
  Forall (fun h => primitive (point_id h) = true) result ->
  exists hits, array_map Server.hit result = Returned hits.
Proof.
  induction 1 as [|h result Hh _ (hits & IH)]; simpl.
  - now exists [].
  - destruct (String_primitive _ Hh) as (s & Hs).
    unfold Server.hit at 1. rewrite Hs; simpl. rewrite IH; simpl.
    eexists; reflexivity.
Qed.

Section SearchHandler.

Variable env : environment.

#[local] Arguments Num.of_Z : simpl never.
#[local] Arguments Num.of_nat : simpl never.
#[local] Arguments JS.String : simpl never.
#[local] Arguments JS.Number : simpl never.
#[local] Arguments Server.buildFilter : simpl never.
#[local] Arguments Server.hit : simpl never.
#[local] Arguments array_map : simpl never.
#[local] Arguments Server.COLLECTION : simpl never.

Lemma invalid_query_test (q : value) :
  invalid_query q ->
  negb (JS.ToBoolean q) || negb (String.eqb (JS.typeof q) "string") = true.
Proof.
  intros [-> | [-> | H]]; try reflexivity.
  apply String.eqb_neq in H. rewrite H. apply orb_true_r.
Qed.

Lemma valid_query_test (q : value) :
  valid_query q ->
  negb (JS.ToBoolean q) || negb (String.eqb (JS.typeof q) "string") = false.
Proof.
  intros (s & -> & Hs). destruct s; [contradiction|reflexivity].
Qed.

Lemma search_handler_invalid (req_body : value) :
  invalid_query (JS.prop (body_of req_body) "query") ->
  Server.search_handler env req_body = Done (Returned bad_request).
Proof.
  intros H. unfold Server.search_handler. fold (body_of req_body).
  cbv zeta. rewrite (invalid_query_test _ H). reflexivity.
Qed.

Lemma query_valid_or_invalid (q : value) : valid_query q \/ invalid_query q.
Proof.
  destruct q as [| |b|x|s|l|fs|n m];
    try (right; right; right; discriminate).
  destruct s as [|c s].
  - right. right. now left.
  - left. exists (String c s). split; [reflexivity|discriminate].
Qed.

Lemma run_failed (w : world) (past : list event) (e : value) :
  run w past
    match JS.String e with
    | Returned s => Async.ret (server_error s)
    | Thrown e' => Done (Thrown e')
    end
  = (past, failed e).
Proof. unfold failed. now destruct (JS.String e). Qed.

Ltac follow_path :=
  simpl; try (fold server_error; rewrite run_failed); simpl;
  econstructor; eassumption.

(** Every run of the handler follows one of the paths. *)
Lemma search_handler_run (w : world) (req_body : value) :
  search_run env w (body_of req_body)
    (fst (exec w (Server.search_handler env req_body)))
    (snd (exec w (Server.search_handler env req_body))).
Proof.
  destruct (query_valid_or_invalid (JS.prop (body_of req_body) "query")) as [Hq|Hq].
  - unfold Server.search_handler. fold (body_of req_body). cbv zeta.
    rewrite (valid_query_test _ Hq).
    fold (topK_of (body_of req_body)). fold (filter_args (body_of req_body)).
    unfold exec. simpl. fold mean_normalized.
    destruct (w_embedder w [] _ mean_normalized) as [out|e] eqn:He;
      [fold (vector_of out)|follow_path].
    simpl.
    destruct (Server.buildFilter (filter_args (body_of req_body))) as [f|e] eqn:Hf;
      [|follow_path].
    simpl.
    destruct (JS.Number (topK_of (body_of req_body))) as [limit|e] eqn:Hn;
      [|follow_path].
    simpl. fold (search_params (vector_of out) limit f).
    destruct (w_search w _ _ (search_params (vector_of out) limit f))
      as [result|e] eqn:Hs; [|follow_path].
    simpl.
    destruct (array_map Server.hit result) as [hits|e] eqn:Hh; follow_path.
  - rewrite (search_handler_invalid _ Hq). now apply run_invalid.
Qed.

Lemma valid_not_invalid (q : value) : valid_query q -> invalid_query q -> False.
Proof.
  intros (s & -> & Hne) [H | [H | H]].
  - discriminate H.
  - apply Hne. congruence.
  - now apply H.
Qed.

(** A search is invoked only after the query was embedded, the filter built
    and [topK] coerced, and with exactly those parameters. *)
Lemma search_event_inv (w : world) (req_body : value) c p r :
  In (EvSearch c p r) (fst (exec w (Server.search_handler env req_body))) ->
  exists out f limit,
    valid_query (JS.prop (body_of req_body) "query")
    /\ w_embedder w [] (JS.prop (body_of req_body) "query") mean_normalized
       = Returned out
    /\ Server.buildFilter (filter_args (body_of req_body)) = Returned f
    /\ JS.Number (topK_of (body_of req_body)) = Returned limit
    /\ c = Server.COLLECTION env
    /\ p = search_params (vector_of out) limit f.
Proof.
  intros Hin.
  pose proof (search_handler_run w req_body) as Hrun.
  inversion Hrun as [Hq Ht | e Hq He Ht | out e Hq He Hf Ht
                    | out f e Hq He Hf Hn Ht
                    | out f limit e Hq He Hf Hn Hs Ht
                    | out f limit result e Hq He Hf Hn Hs Hh Ht
                    | out f limit result hits Hq He Hf Hn Hs Hh Ht];
    rewrite <- Ht in Hin; simpl in Hin;
    repeat (destruct Hin as [Hin|Hin]; try discriminate Hin);
    try contradiction;
    injection Hin as <- <- <-; exists out, f, limit; repeat split; assumption.
Qed.

(** The filter a search receives is the one [buildFilter] made from the
    body. *)
Lemma filter_of_search_event (w : world) (req_body : value) c p r :
  In (EvSearch c p r) (fst (exec w (Server.search_handler env req_body))) ->
  Server.buildFilter (filter_args (body_of req_body)) = Returned (sp_filter p).
Proof.
  intros Hin.
  apply search_event_inv in Hin as (out & f & limit & _ & _ & Hf & _ & _ & ->).
  exact Hf.
Qed.

(** Conversely, once those three steps succeed the search is invoked. *)
Lemma search_invoked (w : world) (req_body : value) out f limit :
  valid_query (JS.prop (body_of req_body) "query") ->
  w_embedder w [] (JS.prop (body_of req_body) "query") mean_normalized = Returned out ->
  Server.buildFilter (filter_args (body_of req_body)) = Returned f ->
  JS.Number (topK_of (body_of req_body)) = Returned limit ->
  exists r,
    In (EvSearch (Server.COLLECTION env) (search_params (vector_of out) limit f) r)
       (fst (exec w (Server.search_handler env req_body))).
Proof.
  intros Hq He Hf Hn.
  pose proof (search_handler_run w req_body) as Hrun.
  inversion Hrun as [Hq' Ht | e' Hq' He' Ht | out' e' Hq' He' Hf' Ht
                    | out' f' e' Hq' He' Hf' Hn' Ht
                    | out' f' limit' e' Hq' He' Hf' Hn' Hs' Ht
                    | out' f' limit' result' e' Hq' He' Hf' Hn' Hs' Hh' Ht
                    | out' f' limit' result' hits' Hq' He' Hf' Hn' Hs' Hh' Ht].
  - now destruct (valid_not_invalid _ Hq Hq').
  - congruence.
  - congruence.
  - congruence.
  - assert (out' = out) by congruence. assert (f' = f) by congruence.
    assert (limit' = limit) by congruence. subst.
    eexists. right. left. reflexivity.
  - assert (out' = out) by congruence. assert (f' = f) by congruence.
    assert (limit' = limit) by congruence. subst.
    eexists. right. left. reflexivity.
  - assert (out' = out) by congruence. assert (f' = f) by congruence.
    assert (limit' = limit) by congruence. subst.
    eexists. right. left. reflexivity.
Qed.

(** C3: a request whose [query] is missing, empty or not text is answered
    with status 400, and no collaborator is invoked: the handler awaits
    nothing, and no run of it records an event. *)
Theorem search_rejects_invalid_query (req_body : value) :
  invalid_query (JS.prop (body_of req_body) "query") ->
  Server.search_handler env req_body = Done (Returned bad_request)
  /\ status bad_request = 400
  /\ forall w, exec w (Server.search_handler env req_body) = ([], Returned bad_request).
Proof.
  intros H. rewrite (search_handler_invalid _ H).
  split; [reflexivity | split; [reflexivity | intros w; reflexivity]].
Qed.

(** C9: a body that is [undefined] or [null] is read as the empty object,
    and the request is answered like one without [query]: status 400, no
    collaborator invoked. *)
Theorem search_absent_body :
  body_of VUndefined = VObject [] /\ body_of VNull = VObject []
  /\ Server.search_handler env VUndefined = Server.search_handler env (VObject [])
  /\ Server.search_handler env VNull = Server.search_handler env (VObject [])
  /\ Server.search_handler env (VObject []) = Done (Returned bad_request)
  /\ forall w, exec w (Server.search_handler env VUndefined) = ([], Returned bad_request)
            /\ exec w (Server.search_handler env VNull) = ([], Returned bad_request).
Proof.
  assert (Hu : invalid_query (JS.prop (body_of VUndefined) "query")) by now left.
  assert (Hn : invalid_query (JS.prop (body_of VNull) "query")) by now left.
  assert (Ho : invalid_query (JS.prop (body_of (VObject [])) "query")) by now left.
  rewrite (search_handler_invalid _ Hu), (search_handler_invalid _ Hn),
    (search_handler_invalid _ Ho).
  repeat split.
Qed.

Lemma or_five (n : Num.number) :
  JS.or (VNumber n) (VNumber (Num.of_Z 5))
  = VNumber (if Num.isNaN n || Num.is_zero n then Num.of_Z 5 else n).
Proof. now destruct n. Qed.

Lemma default_present (v d : value) : v <> VUndefined -> JS.default v d = v.
Proof. destruct v; intros H; try reflexivity. now contradiction H. Qed.

(** The limit of a search event, from the [topK] of the body. *)
Lemma limit_of_search_event (w : world) (req_body : value) c p r :
  In (EvSearch c p r) (fst (exec w (Server.search_handler env req_body))) ->
  (JS.prop (body_of req_body) "topK" = VUndefined ->
   sp_limit p = VNumber (Num.of_Z 5))
  /\ (JS.prop (body_of req_body) "topK" <> VUndefined ->
      exists n,
        JS.Number (JS.prop (body_of req_body) "topK") = Returned n
        /\ sp_limit p
           = VNumber (if Num.isNaN n || Num.is_zero n then Num.of_Z 5 else n)
        /\ (is_negative n = true -> sp_limit p = VNumber n)).
Proof.
  intros Hin.
  apply search_event_inv in Hin as (out & f & limit & _ & _ & _ & Hn & _ & ->).
  cbn [sp_limit search_params]. rewrite or_five. split.
  - intros Habsent. unfold topK_of in Hn. rewrite Habsent in Hn.
    injection Hn as <-. reflexivity.
  - intros Hpresent. unfold topK_of in Hn.
    rewrite (default_present _ _ Hpresent) in Hn.
    exists limit. split; [assumption | split; [reflexivity|]].
    intros Hneg. now destruct limit as [| [|] | | [|] m e].
Qed.

(** C2 (amended): the limit passed to the vector search is the numeric
    coercion of [topK], and 5 when [topK] is missing, when the coercion is
    NaN, or when it is zero; a negative [topK] is passed through.  The search
    is invoked as soon as the embedding, the filter and the coercion succeed. *)
Theorem search_limit (w : world) (req_body : value) :
  (forall c p r,
      In (EvSearch c p r) (fst (exec w (Server.search_handler env req_body))) ->
      (JS.prop (body_of req_body) "topK" = VUndefined ->
       sp_limit p = VNumber (Num.of_Z 5))
      /\ (JS.prop (body_of req_body) "topK" <> VUndefined ->
          exists n,
            JS.Number (JS.prop (body_of req_body) "topK") = Returned n
            /\ sp_limit p
               = VNumber (if Num.isNaN n || Num.is_zero n then Num.of_Z 5 else n)
            /\ (is_negative n = true -> sp_limit p = VNumber n)))
  /\ (forall out f limit,
        valid_query (JS.prop (body_of req_body) "query") ->
        w_embedder w [] (JS.prop (body_of req_body) "query") mean_normalized
        = Returned out ->
        Server.buildFilter (filter_args (body_of req_body)) = Returned f ->
        JS.Number (topK_of (body_of req_body)) = Returned limit ->
        exists r,
          In (EvSearch (Server.COLLECTION env)
                (search_params (vector_of out) limit f) r)
             (fst (exec w (Server.search_handler env req_body)))).
Proof.
  split.
  - intros c p r. apply limit_of_search_event.
  - intros out f limit. apply search_invoked.
Qed.

(** C5: for a valid request without [tag], [minImportance], [docId] and
    [source], every search is invoked with [filter: undefined], and with
    [limit: 5] when [topK] is absent too; the search is invoked whenever the
    embedding succeeds. *)
Theorem search_unfiltered (w : world) (req_body : value) :
  valid_query (JS.prop (body_of req_body) "query") ->
  JS.prop (body_of req_body) "tag" = VUndefined ->
  JS.prop (body_of req_body) "minImportance" = VUndefined ->
  JS.prop (body_of req_body) "docId" = VUndefined ->
  JS.prop (body_of req_body) "source" = VUndefined ->
  (forall c p r,
      In (EvSearch c p r) (fst (exec w (Server.search_handler env req_body))) ->
      sp_filter p = VUndefined
      /\ (JS.prop (body_of req_body) "topK" = VUndefined ->
          sp_limit p = VNumber (Num.of_Z 5)))
  /\ (forall out,
        w_embedder w [] (JS.prop (body_of req_body) "query") mean_normalized
        = Returned out ->
        JS.prop (body_of req_body) "topK" = VUndefined ->
        exists r,
          In (EvSearch (Server.COLLECTION env)
                {| sp_vector := vector_of out;
                   sp_limit := VNumber (Num.of_Z 5);
                   sp_filter := VUndefined;
                   sp_with_payload := true;
                   sp_with_vector := false |} r)
             (fst (exec w (Server.search_handler env req_body)))).
Proof.
  intros Hq Htag Himp Hdoc Hsrc.
  assert (Hf : Server.buildFilter (filter_args (body_of req_body)) = Returned VUndefined).
  { unfold filter_args. rewrite Htag, Himp, Hdoc, Hsrc. reflexivity. }
  split.
  - intros c p r Hin.
    destruct (search_event_inv _ _ _ _ _ Hin) as (out & f & limit & _ & _ & Hf' & _ & _ & ->).
    split.
    + rewrite Hf in Hf'. now injection Hf' as <-.
    + intros Habsent. now apply (proj1 (limit_of_search_event _ _ _ _ _ Hin)).
  - intros out He Habsent.
    apply (search_invoked w req_body out VUndefined (Num.of_Z 5) Hq He Hf).
    unfold topK_of. rewrite Habsent. reflexivity.
Qed.

Lemma search_found (w : world) (req_body : value) out f limit result hits :
  valid_query (JS.prop (body_of req_body) "query") ->
  w_embedder w [] (JS.prop (body_of req_body) "query") mean_normalized = Returned out ->
  Server.buildFilter (filter_args (body_of req_body)) = Returned f ->
  JS.Number (topK_of (body_of req_body)) = Returned limit ->
  w_search w [EvEmbedder (JS.prop (body_of req_body) "query") mean_normalized (Returned out)]
    (Server.COLLECTION env) (search_params (vector_of out) limit f) = Returned result ->
  array_map Server.hit result = Returned hits ->
  snd (exec w (Server.search_handler env req_body)) = Returned (found result hits).
Proof.
  intros Hq He Hf Hn Hs Hh.
  pose proof (search_handler_run w req_body) as Hrun.
  inversion Hrun; try congruence.
  now destruct (valid_not_invalid _ Hq).
Qed.

Lemma failed_status (e : value) (resp : Response) :
  failed e = Returned resp -> status resp = 500.
Proof.
  unfold failed. destruct (JS.String e); simpl; [|discriminate].
  now intros [= <-].
Qed.

(** C6: in every successful response the count is the length of the hit
    list, and the hits are the matches the search returned, in order: each
    [id] is the match's identifier stringified, each [score] and [payload]
    the match's own.  A valid request gets this response whenever every step
    of the pipeline succeeds, and the matches always map to hits when their
    identifiers are primitive. *)
Theorem search_response_hits (w : world) (req_body : value) :
  (forall resp,
      snd (exec w (Server.search_handler env req_body)) = Returned resp ->
      status resp = 200 ->
      exists result hits,
        (exists c p, In (EvSearch c p (Returned result))
                       (fst (exec w (Server.search_handler env req_body))))
        /\ body resp = VObject [("count", VNumber (Num.of_nat (List.length hits)));
                                ("hits", VArray hits)]
        /\ Forall2 hit_of result hits)
  /\ (forall out f limit result hits,
        valid_query (JS.prop (body_of req_body) "query") ->
        w_embedder w [] (JS.prop (body_of req_body) "query") mean_normalized
        = Returned out ->
        Server.buildFilter (filter_args (body_of req_body)) = Returned f ->
        JS.Number (topK_of (body_of req_body)) = Returned limit ->
        w_search w
          [EvEmbedder (JS.prop (body_of req_body) "query") mean_normalized (Returned out)]
          (Server.COLLECTION env) (search_params (vector_of out) limit f)
        = Returned result ->
        array_map Server.hit result = Returned hits ->
        snd (exec w (Server.search_handler env req_body))
        = Returned (found result hits))
  /\ (forall result,
        Forall (fun h => primitive (point_id h) = true) result ->
        exists hits, array_map Server.hit result = Returned hits).
Proof.
  split; [|split; [intros out f limit result hits; apply search_found
                  |apply array_map_hit_primitive]].
  intros resp Hres Hstatus.
  pose proof (search_handler_run w req_body) as Hrun.
  rewrite Hres in Hrun.
  inversion Hrun as [Hq Ht Hr | e Hq He Ht Hr | out e Hq He Hf Ht Hr
                    | out f e Hq He Hf Hn Ht Hr
                    | out f limit e Hq He Hf Hn Hs Ht Hr
                    | out f limit result e Hq He Hf Hn Hs Hh Ht Hr
                    | out f limit result hits Hq He Hf Hn Hs Hh Ht Hr];
    try (apply failed_status in Hr; rewrite Hr in Hstatus; discriminate Hstatus).
  - rewrite <- Hr in Hstatus. discriminate Hstatus.
  - pose proof (array_map_hit _ _ Hh) as Hhits.
    exists result, hits. split; [|split].
    + do 2 eexists. right. left. reflexivity.
    + simpl. now rewrite (Forall2_length Hhits).
    + assumption.
Qed.

(** C7: when the embedding call or the search call throws [e], the handler
    logs [e] and answers with status 500 and the body [{ error: String(e) }]
    only; the embedder was called once and the search at most once. *)
Theorem search_upstream_failure (w : world) (req_body : value) (e : value) (s : string) :
  (exists t o, In (EvEmbedder t o (Thrown e))
                 (fst (exec w (Server.search_handler env req_body))))
  \/ (exists c p, In (EvSearch c p (Thrown e))
                    (fst (exec w (Server.search_handler env req_body)))) ->
  JS.String e = Returned s ->
  snd (exec w (Server.search_handler env req_body)) = Returned (server_error s)
  /\ status (server_error s) = 500
  /\ body (server_error s) = VObject [("error", VString s)]
  /\ In (EvConsoleError e) (fst (exec w (Server.search_handler env req_body)))
  /\ List.length (filter is_embedder_call
                    (fst (exec w (Server.search_handler env req_body)))) = 1%nat
  /\ (List.length (filter is_search_call
                     (fst (exec w (Server.search_handler env req_body)))) <= 1)%nat.
Proof.
  intros Hthrown Hs.
  pose proof (search_handler_run w req_body) as Hrun.
  assert (Hfailed : failed e = Returned (server_error s)).
  { unfold failed. now rewrite Hs. }
  inversion Hrun as [Hq Ht Hr | e' Hq He Ht Hr | out e' Hq He Hf Ht Hr
                    | out f e' Hq He Hf Hn Ht Hr
                    | out f limit e' Hq He Hf Hn Hs' Ht Hr
                    | out f limit result e' Hq He Hf Hn Hs' Hh Ht Hr
                    | out f limit result hits Hq He Hf Hn Hs' Hh Ht Hr];
    rewrite <- Ht in Hthrown;
    destruct Hthrown as [(t & o & Hin) | (c & p & Hin)];
    simpl in Hin;
    repeat (destruct Hin as [Hin|Hin]; try discriminate Hin);
    try contradiction;
    inversion Hin; subst;
    rewrite Hfailed; simpl; repeat split; auto.
Qed.

End SearchHandler.

(** ** [GET /api/health] *)

(** C8: when listing the collections throws [e], the health check answers
    with status 500 and [{ ok: false, error: String(e) }]; when the listing
    returns the collections, it answers [{ ok: true, collections }] with their
    names (and with [collections] undefined when the result has none).  The
    listing is called once. *)
Theorem health_check (w : world) :
  (forall e s,
      w_getCollections w [] = Thrown e ->
      JS.String e = Returned s ->
      exec w Server.health_handler
      = ([EvGetCollections (Thrown e)], Returned (unhealthy s))
      /\ status (unhealthy s) = 500)
  /\ (forall cs,
        w_getCollections w [] = Returned {| collections := Some cs |} ->
        exec w Server.health_handler
        = ([EvGetCollections (Returned {| collections := Some cs |})],
           Returned (healthy (map collection_name cs))))
  /\ (w_getCollections w [] = Returned {| collections := None |} ->
      exec w Server.health_handler
      = ([EvGetCollections (Returned {| collections := None |})],
         Returned (Server.send 200
                     (VObject [("ok", VBool true); ("collections", VUndefined)])))).
Proof.
  split; [|split].
  - intros e s Hw Hs. split; [|reflexivity].
    unfold exec, Server.health_handler. simpl. rewrite Hw. simpl.
    rewrite Hs. reflexivity.
  - intros cs Hw.
    unfold exec, Server.health_handler. simpl. rewrite Hw. simpl.
    unfold healthy. now rewrite map_map.
  - intros Hw.
    unfold exec, Server.health_handler. simpl. now rewrite Hw.
Qed.

(** The whole run for [{ "query": "cats" }]. *)
Example cats_run :
  exec (calm two_points) (Server.search_handler no_env cats)
  = ([EvEmbedder (VString "cats") mean_normalized (Returned {| tensor_data := [] |});
      EvSearch "youtube_rag"
        {| sp_vector := VArray []; sp_limit := VNumber (Num.of_Z 5);
           sp_filter := VUndefined; sp_with_payload := true; sp_with_vector := false |}
        (Returned two_points)],
     Returned
       (Server.send 200
          (VObject
             [("count", VNumber (Num.of_Z 2));
              ("hits",
                VArray
                  [VObject [("id", VString "42");
                            ("score", VNumber (Num.of_decimal false 87 (-2)));
                            ("payload", VObject [("tags", VString "pets")])];
                   VObject [("id", VString "5c56c793-69f3-4fbf-87e6-c4bf54c28c26");
                            ("score", VNumber (Num.of_decimal false 5 (-1)));
                            ("payload", VNull)]])]))).
Proof. vm_compute. reflexivity. Qed.

(** C2 (counterexample): with [topK: 0] the search is invoked with limit 5,
    not 0. *)
Lemma topK_zero_becomes_five : ~ topK_as_stated no_env (calm []) cats_top_zero.
Proof.
  intros H.
  specialize (H "youtube_rag"
                (search_params (VArray []) Num.pos_zero VUndefined) (Returned [])).
  assert (Hin : In (EvSearch "youtube_rag"
                      (search_params (VArray []) Num.pos_zero VUndefined) (Returned []))
                   (fst (exec (calm []) (Server.search_handler no_env cats_top_zero)))).
  { vm_compute. right. left. reflexivity. }
  apply H in Hin. vm_compute in Hin. discriminate Hin.
Qed.

(** ** The theorems at concrete requests *)

(** For [{ "query": 7 }]. *)
Lemma search_rejects_invalid_query_witness :
  invalid_query (JS.prop (body_of numeric_query) "query")
  /\ Server.search_handler no_env numeric_query = Done (Returned bad_request)
  /\ status bad_request = 400
  /\ forall w, exec w (Server.search_handler no_env numeric_query)
              = ([], Returned bad_request).
Proof.
  assert (H : invalid_query (JS.prop (body_of numeric_query) "query")).
  { right. right. vm_compute. discriminate. }
  split; [exact H | apply (search_rejects_invalid_query no_env numeric_query H)].
Defined.

(** For [{ "query": "cats", "topK": -1 }]: the limit is -1. *)
Lemma search_limit_witness :
  exists n,
    JS.Number (JS.prop (body_of cats_top_negative) "topK") = Returned n
    /\ sp_limit (search_params (VArray []) (Num.of_Z (-1)) VUndefined)
       = VNumber (if Num.isNaN n || Num.is_zero n then Num.of_Z 5 else n)
    /\ (is_negative n = true ->
        sp_limit (search_params (VArray []) (Num.of_Z (-1)) VUndefined) = VNumber n).
Proof.
  apply (proj2 (proj1 (search_limit no_env (calm []) cats_top_negative)
                  "youtube_rag"
                  (search_params (VArray []) (Num.of_Z (-1)) VUndefined)
                  (Returned [])
                  (or_intror (or_introl eq_refl)))).
  vm_compute. discriminate.
Defined.

(** For [{ "query": "cats" }]: [filter: undefined], [limit: 5]. *)
Lemma search_unfiltered_witness :
  valid_query (JS.prop (body_of cats) "query")
  /\ exists r,
       In (EvSearch "youtube_rag"
             {| sp_vector := VArray [];
                sp_limit := VNumber (Num.of_Z 5);
                sp_filter := VUndefined;
                sp_with_payload := true;
                sp_with_vector := false |} r)
          (fst (exec (calm two_points) (Server.search_handler no_env cats))).
Proof.
  assert (H : valid_query (JS.prop (body_of cats) "query")).
  { exists "cats". split; [reflexivity | discriminate]. }
  split; [exact H|].
  apply (proj2 (search_unfiltered no_env (calm two_points) cats
                  H eq_refl eq_refl eq_refl eq_refl)
           {| tensor_data := [] |} eq_refl eq_refl).
Defined.

(** For [{ "query": "cats" }] and two matches, one with a numeric and one
    with a textual identifier. *)
Lemma search_response_hits_witness :
  snd (exec (calm two_points) (Server.search_handler no_env cats))
  = Returned (found two_points two_hits)
  /\ exists result hits,
       (exists c p, In (EvSearch c p (Returned result))
                      (fst (exec (calm two_points) (Server.search_handler no_env cats))))
       /\ body (found two_points two_hits)
          = VObject [("count", VNumber (Num.of_nat (List.length hits)));
                     ("hits", VArray hits)]
       /\ Forall2 hit_of result hits.
Proof.
  assert (H : snd (exec (calm two_points) (Server.search_handler no_env cats))
              = Returned (found two_points two_hits)).
  { vm_compute. reflexivity. }
  split; [exact H|].
  apply (proj1 (search_response_hits no_env (calm two_points) cats)
           (found two_points two_hits) H eq_refl).
Defined.

(** For [{ "query": "cats" }] when the vector database cannot be reached. *)
Lemma search_upstream_failure_witness :
  snd (exec unreachable (Server.search_handler no_env cats))
  = Returned (server_error "Error: fetch failed")
  /\ In (EvConsoleError connection_refused)
        (fst (exec unreachable (Server.search_handler no_env cats))).
Proof.
  assert (H : In (EvSearch "youtube_rag"
                    (search_params (VArray []) (Num.of_Z 5) VUndefined)
                    (Thrown connection_refused))
                 (fst (exec unreachable (Server.search_handler no_env cats)))).
  { vm_compute. right. left. reflexivity. }
  assert (Hthrown :
            (exists t o, In (EvEmbedder t o (Thrown connection_refused))
                           (fst (exec unreachable (Server.search_handler no_env cats))))
            \/ (exists c p, In (EvSearch c p (Thrown connection_refused))
                              (fst (exec unreachable (Server.search_handler no_env cats))))).
  { right. exists "youtube_rag", (search_params (VArray []) (Num.of_Z 5) VUndefined).
    exact H. }
  destruct (search_upstream_failure no_env unreachable cats connection_refused
              "Error: fetch failed" Hthrown eq_refl)
    as (Hres & _ & _ & Hlog & _).
  split; assumption.
Defined.

(** The health check when the vector database cannot be reached, and when
    it answers. *)
Lemma health_check_witness :
  exec unreachable Server.health_handler
  = ([EvGetCollections (Thrown connection_refused)],
     Returned (unhealthy "Error: fetch failed"))
  /\ exec (calm []) Server.health_handler
     = ([EvGetCollections
           (Returned {| collections := Some [{| collection_name := "youtube_rag" |}] |})],
        Returned (healthy ["youtube_rag"])).
Proof.
  split.
  - apply (proj1 (health_check unreachable) connection_refused "Error: fetch failed"
             eq_refl eq_refl).
  - apply (proj1 (proj2 (health_check (calm [])))
             [{| collection_name := "youtube_rag" |}] eq_refl).
Defined.

(** ** Conversions that throw *)

(** [String] returns exactly on the convertible values, and what it throws
    otherwise is the [TypeError] of [OrdinaryToPrimitive]. *)
Lemma ToString_convertible :
  forall v, if convertible v then exists s, JS.ToString v = Returned s
            else JS.ToString v = Thrown JS.cannot_convert.
Proof.
  fix IH 1. intros [| |b|x|s|items|fields|n m]; simpl;
    try (eexists; reflexivity).
  - induction items as [|x r IHr]; simpl.
    + eexists; reflexivity.
    + pose proof (IH x) as Hx.
      destruct (convertible x).
      * destruct Hx as (sx & Hx).
        assert (He : exists sx',
                   match x with
                   | VUndefined | VNull => Returned ""
                   | _ => JS.ToString x
                   end = Returned sx').
        { destruct x; try (eexists; reflexivity); exists sx; exact Hx. }
        destruct He as (sx' & ->). simpl.
        destruct r as [|y r']; [eexists; reflexivity|].
        match type of IHr with
        | if ?c then _ else _ => destruct c
        end.
        -- destruct IHr as (sr & ->). eexists; reflexivity.
        -- rewrite IHr. reflexivity.
      * simpl. destruct x; try discriminate Hx; simpl in *; rewrite Hx; reflexivity.
  - destruct (JS.has_own fields "toString"); simpl; [reflexivity|eexists; reflexivity].
Qed.

Lemma String_returns (v : value) :
  convertible v = true -> exists s, JS.String v = Returned s.
Proof.
  intros H. pose proof (ToString_convertible v) as Hv. now rewrite H in Hv.
Qed.

Lemma String_throws (v e : value) :
  JS.String v = Thrown e -> e = JS.cannot_convert /\ convertible v = false.
Proof.
  unfold JS.String. intros H. pose proof (ToString_convertible v) as Hv.
  destruct (convertible v).
  - destruct Hv as (s & Hs). congruence.
  - split; congruence.
Qed.

Lemma Number_returns (v : value) :
  convertible v = true -> exists n, JS.Number v = Returned n.
Proof.
  intros H. destruct (String_returns v H) as (s & Hs).
  unfold JS.Number, JS.String in *.
  destruct v; try (eexists; reflexivity);
    unfold JS.ToNumber; rewrite Hs; eexists; reflexivity.
Qed.

Lemma Number_throws (v e : value) :
  JS.Number v = Thrown e -> e = JS.cannot_convert /\ convertible v = false.
Proof.
  unfold JS.Number. intros H. apply String_throws. unfold JS.String.
  destruct v; try (simpl in H; discriminate H);
    unfold JS.ToNumber in H;
    match type of H with
    | context [JS.ToString ?x] => destruct (JS.ToString x); simpl in H
    end; try discriminate H; congruence.
Qed.

(** ** Further properties of [buildFilter] *)

Section BuildFilterShape.

Import Filter.

Lemma importance_clauses_throws (v e : value) :
  importance_clauses v = Thrown e <-> JS.ToBoolean v = true /\ JS.Number v = Thrown e.
Proof.
  unfold importance_clauses. destruct (JS.ToBoolean v); simpl.
  - destruct (JS.Number v) as [n|e']; simpl.
    + split; [discriminate | intros [_ H]; discriminate H].
    + split; [intros [= ->]; now split | intros [_ [= ->]]; reflexivity].
  - split; [discriminate | intros [H _]; discriminate H].
Qed.

Lemma buildFilter_thrown (a : FilterArgs) (e : value) :
  Server.buildFilter a = Thrown e <->
  JS.ToBoolean (minImportance a) = true /\ JS.Number (minImportance a) = Thrown e.
Proof.
  rewrite buildFilter_clauses, <- importance_clauses_throws.
  destruct (importance_clauses (minImportance a)); simpl; split; congruence.
Qed.

(** X1: [buildFilter] returns [undefined] exactly when nothing contributes
    a clause: [tag], [docId] and [source] are falsy, and [minImportance] is
    falsy or converts to NaN.  Any other filter it returns is [{ must }] with
    a non-empty list: it never returns an empty conjunction. *)
Theorem buildFilter_unconstrained (a : FilterArgs) :
  (Server.buildFilter a = Returned VUndefined <->
   JS.ToBoolean (tag a) = false /\ JS.ToBoolean (docId a) = false
   /\ JS.ToBoolean (source a) = false
   /\ (JS.ToBoolean (minImportance a) = false
       \/ JS.Number (minImportance a) = Returned Num.NaN))
  /\ (forall f, Server.buildFilter a = Returned f -> f <> VUndefined ->
      exists c must, f = VObject [("must", VArray (c :: must))]).
Proof.
  rewrite buildFilter_clauses. unfold importance_clauses, clause_if. split.
  - destruct (JS.ToBoolean (tag a)), (JS.ToBoolean (minImportance a));
      simpl; try destruct (JS.Number (minImportance a)) as [[| | |]|e];
      simpl; destruct (JS.ToBoolean (docId a)), (JS.ToBoolean (source a)); simpl;
      split; try discriminate; try (intros (H1 & H2 & H3 & H4); discriminate);
      try (intros (_ & _ & _ & [H|H]); discriminate H);
      try (intros _; repeat split; auto; fail).
  - intros f.
    destruct (JS.ToBoolean (tag a)), (JS.ToBoolean (minImportance a));
      simpl; try destruct (JS.Number (minImportance a)) as [n|e];
      simpl; try destruct (Num.isNaN n);
      destruct (JS.ToBoolean (docId a)), (JS.ToBoolean (source a)); simpl;
      try discriminate; intros [= <-] Hf; try (now contradiction Hf);
      do 2 eexists; reflexivity.
Qed.

(** X2: [buildFilter] throws exactly when [minImportance] is truthy and its
    conversion to a number throws; what it throws is then the [TypeError] of
    that conversion, and it never throws for a [minImportance] that is
    convertible (every primitive is). *)
Theorem buildFilter_throws (a : FilterArgs) :
  (forall e, Server.buildFilter a = Thrown e <->
             JS.ToBoolean (minImportance a) = true
             /\ JS.Number (minImportance a) = Thrown e)
  /\ (forall e, Server.buildFilter a = Thrown e ->
                e = JS.cannot_convert /\ convertible (minImportance a) = false)
  /\ (convertible (minImportance a) = true ->
      exists f, Server.buildFilter a = Returned f)
  /\ (primitive (minImportance a) = true -> convertible (minImportance a) = true).
Proof.
  split; [|split; [|split]].
  - intros e. apply buildFilter_thrown.
  - intros e He. apply buildFilter_thrown in He as [_ He].
    now apply Number_throws.
  - intros Hc. destruct (Server.buildFilter a) as [f|e] eqn:Hf.
    + now exists f.
    + apply buildFilter_thrown in Hf as [_ He].
      apply Number_throws in He as [_ He]. congruence.
  - now destruct (minImportance a).
Qed.

Lemma buildFilter_throws_witness :
  Server.buildFilter shadowed_importance = Thrown JS.cannot_convert
  /\ exists f, Server.buildFilter pets_importance = Returned f.
Proof.
  split.
  - apply (proj1 (buildFilter_throws shadowed_importance) JS.cannot_convert).
    split; reflexivity.
  - apply (proj1 (proj2 (proj2 (buildFilter_throws pets_importance)))).
    reflexivity.
Defined.

End BuildFilterShape.

Section BuildFilterClauses.

Import Filter.

Lemma buildFilter_unconstrained_witness :
  (exists c must,
      VObject [("must", VArray [Server.match_clause "tags" (VString "pets");
                                Server.range_clause "importance" (Num.of_Z 2)])]
      = VObject [("must", VArray (c :: must))])
  /\ Server.buildFilter empty_tag = Returned VUndefined.
Proof.
  split.
  - apply (proj2 (buildFilter_unconstrained pets_importance) _ eq_refl).
    discriminate.
  - apply (proj1 (buildFilter_unconstrained empty_tag)).
    repeat split. now left.
Defined.

Lemma importance_clauses_length (v : value) (ic : list value) :
  importance_clauses v = Returned ic -> (List.length ic <= 1)%nat.
Proof.
  unfold importance_clauses. destruct (JS.ToBoolean v); simpl.
  - destruct (JS.Number v) as [n|e]; simpl; [|discriminate].
    intros [= <-]. destruct (Num.isNaN n); simpl; lia.
  - intros [= <-]. simpl. lia.
Qed.

Lemma clause_if_length (v c : value) : (List.length (clause_if v c) <= 1)%nat.
Proof. unfold clause_if. destruct (JS.ToBoolean v); simpl; lia. Qed.

(** The clauses of a built filter, in order. *)
Lemma must_of_buildFilter (a : FilterArgs) (f : value) :
  Server.buildFilter a = Returned f ->
  exists ic,
    importance_clauses (minImportance a) = Returned ic
    /\ must_of f
       = (clause_if (tag a) (Server.match_clause "tags" (tag a))
          ++ ic
          ++ clause_if (docId a) (Server.match_clause "doc_id" (docId a))
          ++ clause_if (source a) (Server.match_clause "source" (source a)))%list.
Proof.
  rewrite buildFilter_clauses.
  destruct (importance_clauses (minImportance a)) as [ic|e]; simpl; [|discriminate].
  intros [= <-]. exists ic. split; [reflexivity | apply must_of_wrap].
Qed.

(** X3: a built filter constrains each stored attribute at most once and
    nothing but the four stored attributes, so it has at most four clauses. *)
Theorem buildFilter_attributes (a : FilterArgs) (f : value) :
  Server.buildFilter a = Returned f ->
  (forall c, In c (must_of f) ->
             exists k, In k stored_attributes /\ JS.prop c "key" = VString k)
  /\ (forall k, (List.length (clauses_keyed k f) <= 1)%nat)
  /\ (List.length (must_of f) <= 4)%nat.
Proof.
  intros Hf.
  destruct (must_of_buildFilter a f Hf) as (ic & Hic & Hmust).
  split; [|split].
  - intros c. rewrite Hmust, !in_app_iff. unfold clause_if.
    intros [Hc | [Hc | [Hc | Hc]]].
    + destruct (JS.ToBoolean (tag a)); [destruct Hc as [<-|[]]|destruct Hc].
      exists "tags". split; [now left | reflexivity].
    + unfold importance_clauses in Hic.
      destruct (JS.ToBoolean (minImportance a)); simpl in Hic.
      * destruct (JS.Number (minImportance a)) as [n|e]; simpl in Hic;
          [|discriminate Hic].
        injection Hic as <-.
        destruct (Num.isNaN n); [destruct Hc | destruct Hc as [<-|[]]].
        exists "importance". split; [right; now left | reflexivity].
      * injection Hic as <-. destruct Hc.
    + destruct (JS.ToBoolean (docId a)); [destruct Hc as [<-|[]]|destruct Hc].
      exists "doc_id". split; [right; right; now left | reflexivity].
    + destruct (JS.ToBoolean (source a)); [destruct Hc as [<-|[]]|destruct Hc].
      exists "source". split; [right; right; right; now left | reflexivity].
  - intros k. unfold clauses_keyed. rewrite Hmust.
    rewrite !filter_app, !keyed_clause_if, (keyed_importance _ _ _ Hic).
    pose proof (importance_clauses_length _ _ Hic) as Hlen.
    pose proof (clause_if_length (tag a) (Server.match_clause "tags" (tag a))).
    pose proof (clause_if_length (docId a) (Server.match_clause "doc_id" (docId a))).
    pose proof (clause_if_length (source a) (Server.match_clause "source" (source a))).
    destruct (String.eqb_spec k "tags") as [->|_]; [simpl; rewrite app_nil_r; lia|].
    destruct (String.eqb_spec k "importance") as [->|_]; [simpl; rewrite app_nil_r; lia|].
    destruct (String.eqb_spec k "doc_id") as [->|_]; [simpl; rewrite app_nil_r; lia|].
    destruct (String.eqb k "source"); simpl; rewrite ?app_nil_r; lia.
  - rewrite Hmust, !length_app.
    pose proof (importance_clauses_length _ _ Hic).
    pose proof (clause_if_length (tag a) (Server.match_clause "tags" (tag a))).
    pose proof (clause_if_length (docId a) (Server.match_clause "doc_id" (docId a))).
    pose proof (clause_if_length (source a) (Server.match_clause "source" (source a))).
    lia.
Qed.

Lemma buildFilter_attributes_witness :
  Server.buildFilter three_fields = Returned three_clauses
  /\ (List.length (must_of three_clauses) <= 4)%nat
  /\ (List.length (clauses_keyed "doc_id" three_clauses) <= 1)%nat.
Proof.
  assert (H : Server.buildFilter three_fields = Returned three_clauses) by reflexivity.
  split; [exact H | split].
  - apply (proj2 (proj2 (buildFilter_attributes three_fields three_clauses H))).
  - apply (proj1 (proj2 (buildFilter_attributes three_fields three_clauses H))).
Defined.

(** X4: every clause of a built filter is either the range clause on
    [importance], whose bound is the numeric coercion of [minImportance] and
    never NaN, or an equality clause whose value is the truthy [tag], [docId]
    or [source] as received, under [tags], [doc_id] or [source]. *)
Theorem buildFilter_clause_shapes (a : FilterArgs) (f c : value) :
  Server.buildFilter a = Returned f ->
  In c (must_of f) ->
  (is_range c = true
   /\ exists n, c = Server.range_clause "importance" n
                /\ JS.Number (minImportance a) = Returned n
                /\ Num.isNaN n = false)
  \/ (is_range c = false
      /\ exists k v, c = Server.match_clause k v
                     /\ JS.ToBoolean v = true
                     /\ ((k = "tags" /\ v = tag a)
                         \/ (k = "doc_id" /\ v = docId a)
                         \/ (k = "source" /\ v = source a))).
Proof.
  intros Hf.
  destruct (must_of_buildFilter a f Hf) as (ic & Hic & ->).
  rewrite !in_app_iff. unfold clause_if.
  intros [Hc | [Hc | [Hc | Hc]]].
  - destruct (JS.ToBoolean (tag a)) eqn:Ht; [destruct Hc as [<-|[]]|destruct Hc].
    right. split; [reflexivity|]. exists "tags", (tag a).
    split; [reflexivity | split; [assumption | now left]].
  - unfold importance_clauses in Hic.
    destruct (JS.ToBoolean (minImportance a)); simpl in Hic.
    + destruct (JS.Number (minImportance a)) as [n|e]; simpl in Hic;
        [|discriminate Hic].
      injection Hic as <-.
      destruct (Num.isNaN n) eqn:Hn; [destruct Hc | destruct Hc as [<-|[]]].
      left. split; [reflexivity|]. exists n. auto.
    + injection Hic as <-. destruct Hc.
  - destruct (JS.ToBoolean (docId a)) eqn:Ht; [destruct Hc as [<-|[]]|destruct Hc].
    right. split; [reflexivity|]. exists "doc_id", (docId a).
    split; [reflexivity | split; [assumption | right; now left]].
  - destruct (JS.ToBoolean (source a)) eqn:Ht; [destruct Hc as [<-|[]]|destruct Hc].
    right. split; [reflexivity|]. exists "source", (source a).
    split; [reflexivity | split; [assumption | right; now right]].
Qed.

Lemma buildFilter_clause_shapes_witness :
  Server.buildFilter pets_importance
  = Returned (VObject [("must", VArray [Server.match_clause "tags" (VString "pets");
                                        Server.range_clause "importance" (Num.of_Z 2)])])
  /\ ((is_range (Server.range_clause "importance" (Num.of_Z 2)) = true
       /\ exists n, Server.range_clause "importance" (Num.of_Z 2)
                    = Server.range_clause "importance" n
                    /\ JS.Number (minImportance pets_importance) = Returned n
                    /\ Num.isNaN n = false)
      \/ (is_range (Server.range_clause "importance" (Num.of_Z 2)) = false
          /\ exists k v, Server.range_clause "importance" (Num.of_Z 2)
                         = Server.match_clause k v
                         /\ JS.ToBoolean v = true
                         /\ ((k = "tags" /\ v = tag pets_importance)
                             \/ (k = "doc_id" /\ v = docId pets_importance)
                             \/ (k = "source" /\ v = source pets_importance)))).
Proof.
  split; [reflexivity|].
  apply (buildFilter_clause_shapes pets_importance _ _ eq_refl).
  right. left. reflexivity.
Defined.

End BuildFilterClauses.

(** ** Further properties of [POST /api/search] *)

Lemma COLLECTION_not_empty (env : environment) : Server.COLLECTION env <> "".
Proof.
  unfold Server.COLLECTION. destruct (env "QDRANT_COLLECTION") as [[|c s]|];
    simpl; discriminate.
Qed.

Lemma hit_throws (h : ScoredPoint) (e : value) :
  Server.hit h = Thrown e -> e = JS.cannot_convert /\ convertible (point_id h) = false.
Proof.
  unfold Server.hit. destruct (JS.String (point_id h)) as [s|e'] eqn:Hs; simpl.
  - discriminate.
  - intros [= <-]. now apply String_throws.
Qed.

(** [result.map] throws exactly when some identifier cannot be stringified. *)
Lemma array_map_hit_throws (result : list ScoredPoint) (e : value) :
  array_map Server.hit result = Thrown e ->
  e = JS.cannot_convert
  /\ Exists (fun h => convertible (point_id h) = false) result.
Proof.
  induction result as [|h result IH]; simpl; [discriminate|].
  destruct (Server.hit h) as [x|e'] eqn:Hh; simpl.
  - destruct (array_map Server.hit result) as [xs|e'']; simpl; [discriminate|].
    intros [= <-]. destruct (IH eq_refl) as [-> Hex].
    split; [reflexivity | now apply Exists_cons_tl].
  - intros [= <-]. apply hit_throws in Hh as [-> Hh].
    split; [reflexivity | now apply Exists_cons_hd].
Qed.

Lemma failed_convertible (e : value) :
  convertible e = true -> exists s, failed e = Returned (server_error s).
Proof.
  intros H. destruct (String_returns e H) as (s & Hs).
  exists s. unfold failed. now rewrite Hs.
Qed.

Lemma failed_throws (e e' : value) :
  failed e = Thrown e' -> e' = JS.cannot_convert /\ convertible e = false.
Proof.
  unfold failed. destruct (JS.String e) as [s|x] eqn:Hs; simpl; [discriminate|].
  intros [= <-]. now apply String_throws.
Qed.

(** Case analysis on membership in an explicit list of events. *)
Ltac in_events H :=
  simpl in H;
  repeat (destruct H as [H|H]; [try discriminate H|]);
  try contradiction.

Section SearchRuns.

Variable env : environment.

(** X5: every response of the search handler has status 200, 400 or 500;
    it is 400 exactly when [query] is missing, empty or not text, and 200
    only for a valid query. *)
Theorem search_status (w : world) (req_body : value) (resp : Response) :
  snd (exec w (Server.search_handler env req_body)) = Returned resp ->
  (status resp = 200 \/ status resp = 400 \/ status resp = 500)
  /\ (status resp = 400 <-> invalid_query (JS.prop (body_of req_body) "query"))
  /\ (status resp = 200 -> valid_query (JS.prop (body_of req_body) "query")).
Proof.
  intros Hres.
  pose proof (search_handler_run env w req_body) as Hrun.
  rewrite Hres in Hrun.
  inversion Hrun as [Hq Ht Hr | e Hq He Ht Hr | out e Hq He Hf Ht Hr
                    | out f e Hq He Hf Hn Ht Hr
                    | out f limit e Hq He Hf Hn Hs Ht Hr
                    | out f limit result e Hq He Hf Hn Hs Hh Ht Hr
                    | out f limit result hits Hq He Hf Hn Hs Hh Ht Hr];
    try (apply failed_status in Hr; rewrite Hr;
         split; [now right; right | split; [split|]];
         [discriminate | intros Hi; destruct (valid_not_invalid _ Hq Hi)
         | discriminate]).
  - split; [right; now left | split; [split|]]; auto; discriminate.
  - split; [now left | split; [split|]]; auto.
    + discriminate.
    + intros Hi; destruct (valid_not_invalid _ Hq Hi).
Qed.

(** The events of a run: none for an invalid query; otherwise the embedder
    call, then the search call if the embedding, the filter and the limit
    succeeded, then the logged error if anything threw. *)
Lemma search_trace_cases (w : world) (req_body : value) :
  let q := JS.prop (body_of req_body) "query" in
  let t := fst (exec w (Server.search_handler env req_body)) in
  let res := snd (exec w (Server.search_handler env req_body)) in
  (invalid_query q /\ t = [])
  \/ (valid_query q /\
      ((exists r e, t = [EvEmbedder q mean_normalized r; EvConsoleError e]
                    /\ res = failed e
                    /\ r = w_embedder w [] q mean_normalized)
       \/ (exists out p r e,
              t = [EvEmbedder q mean_normalized (Returned out);
                   EvSearch (Server.COLLECTION env) p r; EvConsoleError e]
              /\ res = failed e
              /\ w_embedder w [] q mean_normalized = Returned out)
       \/ (exists out p result hits,
              t = [EvEmbedder q mean_normalized (Returned out);
                   EvSearch (Server.COLLECTION env) p (Returned result)]
              /\ res = Returned (found result hits)
              /\ w_embedder w [] q mean_normalized = Returned out))).
Proof.
  intros q t res. subst q t res.
  pose proof (search_handler_run env w req_body) as Hrun.
  inversion Hrun as [Hq Ht Hr | e Hq He Ht Hr | out e Hq He Hf Ht Hr
                    | out f e Hq He Hf Hn Ht Hr
                    | out f limit e Hq He Hf Hn Hs Ht Hr
                    | out f limit result e Hq He Hf Hn Hs Hh Ht Hr
                    | out f limit result hits Hq He Hf Hn Hs Hh Ht Hr].
  - left. now split.
  - right. split; [assumption|]. left. rewrite <- He. now do 2 eexists.
  - right. split; [assumption|]. left. rewrite <- He. now do 2 eexists.
  - right. split; [assumption|]. left. rewrite <- He. now do 2 eexists.
  - right. split; [assumption|]. right. left. now do 4 eexists.
  - right. split; [assumption|]. right. left. now do 4 eexists.
  - right. split; [assumption|]. right. right. now do 4 eexists.
Qed.

(** X6: the embedder is called exactly when the query is valid, and then
    first and once; the search is called at most once and only after the
    embedder returned; at most one error is logged, as the last event, and
    then the run ends in the [catch] block. *)
Theorem search_trace_shape (w : world) (req_body : value) :
  (invalid_query (JS.prop (body_of req_body) "query") ->
   fst (exec w (Server.search_handler env req_body)) = [])
  /\ (valid_query (JS.prop (body_of req_body) "query") ->
      exists rest,
        fst (exec w (Server.search_handler env req_body))
        = EvEmbedder (JS.prop (body_of req_body) "query") mean_normalized
            (w_embedder w [] (JS.prop (body_of req_body) "query") mean_normalized)
          :: rest
        /\ filter is_embedder_call rest = [])
  /\ (List.length (filter is_search_call
                     (fst (exec w (Server.search_handler env req_body)))) <= 1)%nat
  /\ (List.length (filter is_console_error
                     (fst (exec w (Server.search_handler env req_body)))) <= 1)%nat
  /\ (forall c p r,
        In (EvSearch c p r) (fst (exec w (Server.search_handler env req_body))) ->
        exists out,
          w_embedder w [] (JS.prop (body_of req_body) "query") mean_normalized
          = Returned out)
  /\ (forall e,
        In (EvConsoleError e) (fst (exec w (Server.search_handler env req_body))) ->
        snd (exec w (Server.search_handler env req_body)) = failed e
        /\ exists before,
             fst (exec w (Server.search_handler env req_body))
             = (before ++ [EvConsoleError e])%list).
Proof.
  destruct (search_trace_cases w req_body)
    as [[Hq Ht] | [Hq [(r & e & Ht & Hres & Hr)
                      | [(out & p & r & e & Ht & Hres & He)
                        | (out & p & result & hits & Ht & Hres & He)]]]];
    rewrite Ht; (split; [|split; [|split; [|split; [|split]]]]);
    try (simpl; lia);
    try (intros Hi; now destruct (valid_not_invalid _ Hq Hi));
    try (intros Hi; now destruct (valid_not_invalid _ Hi Hq));
    try (intros c0 p0 r0 Hin; in_events Hin; now exists out);
    try (intros e0 Hin; in_events Hin).
  - reflexivity.
  - intros _. subst r. eexists. split; reflexivity.
  - injection Hin as <-. split; [assumption|].
    now exists [EvEmbedder (JS.prop (body_of req_body) "query") mean_normalized r].
  - intros _. rewrite He. eexists. split; reflexivity.
  - injection Hin as <-. split; [assumption|].
    now exists [EvEmbedder (JS.prop (body_of req_body) "query") mean_normalized
                  (Returned out);
                EvSearch (Server.COLLECTION env) p r].
  - intros _. rewrite He. eexists. split; reflexivity.
Qed.

(** What a search event of a run looks like. *)
Lemma search_event_cases (w : world) (req_body : value) c p r :
  In (EvSearch c p r) (fst (exec w (Server.search_handler env req_body))) ->
  exists out f limit,
    w_embedder w [] (JS.prop (body_of req_body) "query") mean_normalized = Returned out
    /\ Server.buildFilter (filter_args (body_of req_body)) = Returned f
    /\ JS.Number (topK_of (body_of req_body)) = Returned limit
    /\ c = Server.COLLECTION env
    /\ p = search_params (vector_of out) limit f
    /\ r = w_search w
             [EvEmbedder (JS.prop (body_of req_body) "query") mean_normalized
                (Returned out)] c p.
Proof.
  intros Hin.
  pose proof (search_handler_run env w req_body) as Hrun.
  inversion Hrun as [Hq Ht | e Hq He Ht | out e Hq He Hf Ht
                    | out f e Hq He Hf Hn Ht
                    | out f limit e Hq He Hf Hn Hs Ht
                    | out f limit result e Hq He Hf Hn Hs Hh Ht
                    | out f limit result hits Hq He Hf Hn Hs Hh Ht];
    rewrite <- Ht in Hin; in_events Hin;
    injection Hin as <- <- <-; exists out, f, limit; rewrite Hs; repeat split;
    assumption.
Qed.

(** X7: every search is invoked on the configured collection, which is never
    the empty string, asks for payloads and not for vectors, carries the
    filter [buildFilter] made of the body, and carries as vector the numbers
    of the tensor the embedder returned, as many as it returned; its result
    is what the vector database answered to exactly that call. *)
Theorem search_parameters (w : world) (req_body : value) c p r :
  In (EvSearch c p r) (fst (exec w (Server.search_handler env req_body))) ->
  c = Server.COLLECTION env /\ c <> ""
  /\ sp_with_payload p = true /\ sp_with_vector p = false
  /\ Server.buildFilter (filter_args (body_of req_body)) = Returned (sp_filter p)
  /\ exists out xs,
       w_embedder w [] (JS.prop (body_of req_body) "query") mean_normalized
       = Returned out
       /\ sp_vector p = VArray xs
       /\ xs = map VNumber (tensor_data out)
       /\ List.length xs = List.length (tensor_data out)
       /\ r = w_search w
                [EvEmbedder (JS.prop (body_of req_body) "query") mean_normalized
                   (Returned out)] c p.
Proof.
  intros Hin.
  apply search_event_cases in Hin
    as (out & f & limit & He & Hf & Hn & -> & -> & ->).
  repeat split; try assumption.
  - apply COLLECTION_not_empty.
  - exists out, (map VNumber (tensor_data out)).
    repeat split; [assumption | apply length_map].
Qed.

(** X8: the limit a search receives is always a number that is neither NaN
    nor zero (it is truthy): [|| 5] replaces both. *)
Theorem search_limit_truthy (w : world) (req_body : value) c p r :
  In (EvSearch c p r) (fst (exec w (Server.search_handler env req_body))) ->
  exists n, sp_limit p = VNumber n
            /\ Num.isNaN n = false /\ Num.is_zero n = false
            /\ JS.ToBoolean (sp_limit p) = true.
Proof.
  intros Hin.
  apply search_event_cases in Hin
    as (out & f & limit & _ & _ & _ & _ & -> & _).
  cbn [sp_limit search_params]. unfold JS.or.
  destruct limit as [sz|si| |sf m e];
    eexists; repeat split; reflexivity.
Qed.

(** X9: when [minImportance] or [topK] cannot be converted to a number (an
    object that shadows [toString]), the query has already been embedded; the
    handler then logs the [TypeError], answers with status 500 and never
    invokes the search. *)
Theorem search_conversion_failure (w : world) (req_body : value) out e :
  valid_query (JS.prop (body_of req_body) "query") ->
  w_embedder w [] (JS.prop (body_of req_body) "query") mean_normalized = Returned out ->
  Server.buildFilter (filter_args (body_of req_body)) = Thrown e
  \/ (exists f, Server.buildFilter (filter_args (body_of req_body)) = Returned f
                /\ JS.Number (topK_of (body_of req_body)) = Thrown e) ->
  e = JS.cannot_convert
  /\ exists s,
       exec w (Server.search_handler env req_body)
       = ([EvEmbedder (JS.prop (body_of req_body) "query") mean_normalized
             (Returned out);
           EvConsoleError e],
          Returned (server_error s))
       /\ status (server_error s) = 500.
Proof.
  intros Hq He Hthrows.
  assert (Hconv : e = JS.cannot_convert).
  { destruct Hthrows as [Hf | (f & _ & Hn)].
    - apply buildFilter_thrown in Hf as [_ Hf]. now apply Number_throws in Hf.
    - now apply Number_throws in Hn. }
  split; [assumption|].
  destruct (failed_convertible e) as (s & Hs); [now subst|].
  exists s. split; [|reflexivity].
  rewrite (surjective_pairing (exec w (Server.search_handler env req_body))).
  pose proof (search_handler_run env w req_body) as Hrun.
  inversion Hrun as [Hq' Ht Hr | e' Hq' He' Ht Hr | out' e' Hq' He' Hf' Ht Hr
                    | out' f' e' Hq' He' Hf' Hn' Ht Hr
                    | out' f' limit' e' Hq' He' Hf' Hn' Hs' Ht Hr
                    | out' f' limit' result' e' Hq' He' Hf' Hn' Hs' Hh' Ht Hr
                    | out' f' limit' result' hits' Hq' He' Hf' Hn' Hs' Hh' Ht Hr];
    try (now destruct (valid_not_invalid _ Hq Hq'));
    destruct Hthrows as [Hf | (f & Hf & Hn)]; congruence.
Qed.

(** What follows a throw of the embedder or of the search. *)
Lemma thrown_in_run (w : world) (req_body : value) (e : value) :
  (exists t o, In (EvEmbedder t o (Thrown e))
                 (fst (exec w (Server.search_handler env req_body))))
  \/ (exists c p, In (EvSearch c p (Thrown e))
                    (fst (exec w (Server.search_handler env req_body)))) ->
  snd (exec w (Server.search_handler env req_body)) = failed e.
Proof.
  intros Hthrown.
  pose proof (search_handler_run env w req_body) as Hrun.
  inversion Hrun as [Hq Ht Hr | e' Hq He Ht Hr | out e' Hq He Hf Ht Hr
                    | out f e' Hq He Hf Hn Ht Hr
                    | out f limit e' Hq He Hf Hn Hs' Ht Hr
                    | out f limit result e' Hq He Hf Hn Hs' Hh Ht Hr
                    | out f limit result hits Hq He Hf Hn Hs' Hh Ht Hr];
    rewrite <- Ht in Hthrown;
    destruct Hthrown as [(t & o & Hin) | (c & p & Hin)];
    in_events Hin; inversion Hin; subst; reflexivity.
Qed.

(** X10: an [Error] object thrown by the embedder or by the search is always
    answered, with status 500 and the text [Error.prototype.toString] gives:
    the name, the message, or [name: message]. *)
Theorem search_error_object (w : world) (req_body : value) (name message : string) :
  (exists t o, In (EvEmbedder t o (Thrown (VError name message)))
                 (fst (exec w (Server.search_handler env req_body))))
  \/ (exists c p, In (EvSearch c p (Thrown (VError name message)))
                    (fst (exec w (Server.search_handler env req_body)))) ->
  snd (exec w (Server.search_handler env req_body))
  = Returned (server_error (error_text name message))
  /\ (name <> "" -> message <> "" ->
      error_text name message = name ++ ": " ++ message).
Proof.
  intros Hthrown. split.
  - now rewrite (thrown_in_run w req_body _ Hthrown).
  - intros Hn Hm. unfold error_text.
    destruct name; [contradiction|]. destruct message; [contradiction|].
    reflexivity.
Qed.

(** X11: a request goes unanswered only when the embedder or the search
    throws a value that cannot be stringified: [String(e)] then throws inside
    the [catch] block.  Every other run sends a response. *)
Theorem search_unanswered (w : world) (req_body : value) :
  (forall e',
      snd (exec w (Server.search_handler env req_body)) = Thrown e' ->
      e' = JS.cannot_convert
      /\ exists e,
           convertible e = false
           /\ In (EvConsoleError e) (fst (exec w (Server.search_handler env req_body)))
           /\ ((exists t o, In (EvEmbedder t o (Thrown e))
                              (fst (exec w (Server.search_handler env req_body))))
               \/ (exists c p, In (EvSearch c p (Thrown e))
                                 (fst (exec w (Server.search_handler env req_body))))))
  /\ ((forall e t o,
         In (EvEmbedder t o (Thrown e))
            (fst (exec w (Server.search_handler env req_body))) ->
         convertible e = true) ->
      (forall e c p,
         In (EvSearch c p (Thrown e))
            (fst (exec w (Server.search_handler env req_body))) ->
         convertible e = true) ->
      exists resp, snd (exec w (Server.search_handler env req_body)) = Returned resp).
Proof.
  assert (Hmain : forall e',
      snd (exec w (Server.search_handler env req_body)) = Thrown e' ->
      e' = JS.cannot_convert
      /\ exists e,
           convertible e = false
           /\ In (EvConsoleError e) (fst (exec w (Server.search_handler env req_body)))
           /\ ((exists t o, In (EvEmbedder t o (Thrown e))
                              (fst (exec w (Server.search_handler env req_body))))
               \/ (exists c p, In (EvSearch c p (Thrown e))
                                 (fst (exec w (Server.search_handler env req_body)))))).
  { intros e' Hres.
    pose proof (search_handler_run env w req_body) as Hrun.
    rewrite Hres in Hrun.
    inversion Hrun as [Hq Ht Hr | e Hq He Ht Hr | out e Hq He Hf Ht Hr
                      | out f e Hq He Hf Hn Ht Hr
                      | out f limit e Hq He Hf Hn Hs Ht Hr
                      | out f limit result e Hq He Hf Hn Hs Hh Ht Hr
                      | out f limit result hits Hq He Hf Hn Hs Hh Ht Hr];
      apply failed_throws in Hr as [-> Hc]; (split; [reflexivity|]).
    - exists e. split; [assumption | split; [simpl; auto|]].
      left. do 2 eexists. left. reflexivity.
    - apply buildFilter_thrown in Hf as [_ Hf].
      apply Number_throws in Hf as [-> _]. discriminate Hc.
    - apply Number_throws in Hn as [-> _]. discriminate Hc.
    - exists e. split; [assumption | split; [simpl; auto|]].
      right. do 2 eexists. right. left. reflexivity.
    - apply array_map_hit_throws in Hh as [-> _]. discriminate Hc. }
  split; [exact Hmain|].
  intros Hemb Hsearch.
  destruct (snd (exec w (Server.search_handler env req_body))) as [resp|e'] eqn:Hres.
  - now exists resp.
  - destruct (Hmain e' eq_refl) as (_ & e & Hc & _ & [(t & o & Hin) | (c & p & Hin)]).
    + rewrite (Hemb _ _ _ Hin) in Hc. discriminate Hc.
    + rewrite (Hsearch _ _ _ Hin) in Hc. discriminate Hc.
Qed.

(** X12: a body that is not an object (an array, a string, a number, a
    boolean, [null], [undefined]) is answered like one without [query]:
    status 400, no collaborator invoked. *)
Theorem search_non_object_body (req_body : value) :
  (forall fields, req_body <> VObject fields) ->
  JS.prop (body_of req_body) "query" = VUndefined
  /\ Server.search_handler env req_body = Done (Returned bad_request).
Proof.
  intros Hbody.
  assert (Hq : JS.prop (body_of req_body) "query" = VUndefined).
  { unfold body_of, JS.or.
    destruct req_body as [| |b|x|s|l|fs|n m]; simpl; try reflexivity.
    - now destruct b.
    - now destruct (negb (Num.is_zero x || Num.isNaN x)).
    - now destruct (negb (Str.is_empty s)).
    - now contradiction (Hbody fs). }
  split; [exact Hq|].
  apply search_handler_invalid. left. exact Hq.
Qed.

End SearchRuns.

Lemma search_status_witness :
  snd (exec (calm []) (Server.search_handler no_env numeric_query))
  = Returned bad_request
  /\ (status bad_request = 400
      <-> invalid_query (JS.prop (body_of numeric_query) "query")).
Proof.
  assert (H : snd (exec (calm []) (Server.search_handler no_env numeric_query))
              = Returned bad_request) by reflexivity.
  split; [exact H|].
  apply (proj1 (proj2 (search_status no_env (calm []) numeric_query bad_request H))).
Defined.

Lemma search_trace_shape_witness :
  valid_query (JS.prop (body_of cats) "query")
  /\ exists rest,
       fst (exec unreachable (Server.search_handler no_env cats))
       = EvEmbedder (JS.prop (body_of cats) "query") mean_normalized
           (w_embedder unreachable [] (JS.prop (body_of cats) "query") mean_normalized)
         :: rest
       /\ filter is_embedder_call rest = [].
Proof.
  assert (H : valid_query (JS.prop (body_of cats) "query")).
  { exists "cats". split; [reflexivity | discriminate]. }
  split; [exact H|].
  apply (proj1 (proj2 (search_trace_shape no_env unreachable cats)) H).
Defined.

Lemma search_parameters_witness :
  In (EvSearch "youtube_rag" (search_params (VArray []) (Num.of_Z 5) VUndefined)
        (Returned two_points))
     (fst (exec (calm two_points) (Server.search_handler no_env cats)))
  /\ sp_with_payload (search_params (VArray []) (Num.of_Z 5) VUndefined) = true
  /\ sp_with_vector (search_params (VArray []) (Num.of_Z 5) VUndefined) = false.
Proof.
  assert (H : In (EvSearch "youtube_rag"
                    (search_params (VArray []) (Num.of_Z 5) VUndefined)
                    (Returned two_points))
                 (fst (exec (calm two_points) (Server.search_handler no_env cats)))).
  { vm_compute. right. left. reflexivity. }
  split; [exact H|].
  destruct (search_parameters no_env (calm two_points) cats _ _ _ H)
    as (_ & _ & Hp & Hv & _).
  split; assumption.
Defined.

Lemma search_limit_truthy_witness :
  exists n, sp_limit (search_params (VArray []) Num.pos_zero VUndefined) = VNumber n
            /\ Num.isNaN n = false /\ Num.is_zero n = false
            /\ JS.ToBoolean (sp_limit (search_params (VArray []) Num.pos_zero VUndefined))
               = true.
Proof.
  apply (search_limit_truthy no_env (calm []) cats_top_zero "youtube_rag"
           (search_params (VArray []) Num.pos_zero VUndefined) (Returned [])).
  vm_compute. right. left. reflexivity.
Defined.

Lemma search_conversion_failure_witness :
  exists s,
    exec (calm []) (Server.search_handler no_env cats_shadowed)
    = ([EvEmbedder (VString "cats") mean_normalized (Returned {| tensor_data := [] |});
        EvConsoleError JS.cannot_convert],
       Returned (server_error s))
    /\ status (server_error s) = 500.
Proof.
  assert (Hq : valid_query (JS.prop (body_of cats_shadowed) "query")).
  { exists "cats". split; [reflexivity | discriminate]. }
  apply (proj2 (search_conversion_failure no_env (calm []) cats_shadowed
                  {| tensor_data := [] |} JS.cannot_convert Hq eq_refl
                  (or_introl eq_refl))).
Defined.

Lemma search_error_object_witness :
  snd (exec unreachable (Server.search_handler no_env cats))
  = Returned (server_error (error_text "Error" "fetch failed")).
Proof.
  apply (proj1 (search_error_object no_env unreachable cats "Error" "fetch failed"
                  (or_intror
                     (ex_intro _ "youtube_rag"
                        (ex_intro _ (search_params (VArray []) (Num.of_Z 5) VUndefined)
                           (or_intror (or_introl eq_refl))))))).
Defined.

Lemma search_unanswered_witness :
  snd (exec hostile (Server.search_handler no_env cats)) = Thrown JS.cannot_convert
  /\ exists resp,
       snd (exec unreachable (Server.search_handler no_env cats)) = Returned resp.
Proof.
  split; [reflexivity|].
  apply (proj2 (search_unanswered no_env unreachable cats)).
  - intros e t o Hin. vm_compute in Hin.
    destruct Hin as [Hin | [Hin | [Hin | []]]]; discriminate Hin.
  - intros e c p Hin. vm_compute in Hin.
    destruct Hin as [Hin | [Hin | [Hin | []]]]; try discriminate Hin.
    inversion Hin. reflexivity.
Defined.

Lemma search_non_object_body_witness :
  Server.search_handler no_env (VArray [VString "cats"]) = Done (Returned bad_request).
Proof.
  apply (proj2 (search_non_object_body no_env (VArray [VString "cats"])
                  (fun fields H => eq_ind (VArray [VString "cats"])
                                     (fun v => match v with VArray _ => True | _ => False end)
                                     I _ H))).
Defined.

(** ** [embed], the configuration and [GET /api/health] *)

(** X13: [embed] calls the embedder once, with mean pooling and
    normalization, and does nothing else; what the embedder throws it throws
    unchanged, and what the embedder returns it turns into an array of
    numbers of the same length. *)
Theorem embed_run (w : world) (text : value) :
  fst (exec w (Server.embed text))
  = [EvEmbedder text {| pooling := "mean"; normalize := true |}
       (w_embedder w [] text mean_normalized)]
  /\ (forall out,
        w_embedder w [] text mean_normalized = Returned out ->
        exists xs,
          snd (exec w (Server.embed text)) = Returned (VArray xs)
          /\ List.length xs = List.length (tensor_data out)
          /\ Forall (fun x => JS.typeof x = "number") xs)
  /\ (forall e,
        w_embedder w [] text mean_normalized = Thrown e ->
        snd (exec w (Server.embed text)) = Thrown e).
Proof.
  unfold exec, Server.embed. simpl. fold mean_normalized.
  destruct (w_embedder w [] text mean_normalized) as [out|e]; simpl.
  - split; [reflexivity | split; [|discriminate]].
    intros out' [= <-]. eexists. split; [reflexivity | split].
    + apply length_map.
    + apply Forall_forall. intros x Hx.
      apply in_map_iff in Hx as (n & <- & _). reflexivity.
  - split; [reflexivity | split; [discriminate|]].
    now intros e' [= <-].
Qed.

Lemma embed_run_witness :
  exists xs,
    snd (exec embedding_three (Server.embed (VString "cats"))) = Returned (VArray xs)
    /\ List.length xs = 3%nat
    /\ Forall (fun x => JS.typeof x = "number") xs.
Proof.
  apply (proj1 (proj2 (embed_run embedding_three (VString "cats"))) three_floats eq_refl).
Defined.


(** X15: the health check calls [getCollections] once and nothing else, and
    logs nothing; its response has status 200 when the listing returned and
    500 when it threw a value that can be stringified, an [Error] object being
    answered with its text; it goes unanswered only when the thrown value
    cannot be stringified. *)
Theorem health_run (w : world) :
  fst (exec w Server.health_handler) = [EvGetCollections (w_getCollections w [])]
  /\ (forall resp,
        snd (exec w Server.health_handler) = Returned resp ->
        (status resp = 200 /\ exists info, w_getCollections w [] = Returned info)
        \/ (status resp = 500
            /\ exists e, w_getCollections w [] = Thrown e /\ convertible e = true))
  /\ (forall e',
        snd (exec w Server.health_handler) = Thrown e' ->
        exists e, w_getCollections w [] = Thrown e /\ convertible e = false)
  /\ (forall name message,
        w_getCollections w [] = Thrown (VError name message) ->
        snd (exec w Server.health_handler)
        = Returned (unhealthy (error_text name message))).
Proof.
  unfold exec, Server.health_handler. simpl.
  destruct (w_getCollections w []) as [info|e] eqn:Hw; simpl.
  - split; [reflexivity | split; [|split]].
    + intros resp [= <-]. left. split; [reflexivity | now exists info].
    + discriminate.
    + discriminate.
  - pose proof (ToString_convertible e) as Hv. unfold JS.String.
    destruct (convertible e) eqn:Hc.
    + destruct Hv as (s & Hs). rewrite Hs. simpl.
      split; [reflexivity | split; [|split]].
      * intros resp [= <-]. right. split; [reflexivity | now exists e].
      * discriminate.
      * intros name message [= ->]. simpl in Hs. now injection Hs as <-.
    + rewrite Hv. simpl.
      split; [reflexivity | split; [|split]].
      * discriminate.
      * intros e' _. now exists e.
      * intros name message [= ->]. discriminate Hc.
Qed.

Lemma health_run_witness :
  snd (exec unreachable Server.health_handler)
  = Returned (unhealthy (error_text "Error" "fetch failed"))
  /\ exists e, w_getCollections hostile [] = Thrown e /\ convertible e = false.
Proof.
  split.
  - apply (proj2 (proj2 (proj2 (health_run unreachable))) "Error" "fetch failed" eq_refl).
  - apply (proj1 (proj2 (proj2 (health_run hostile))) JS.cannot_convert eq_refl).
Defined.
